(** * django-drip: the rule-to-predicate compiler of [drip/models.py]

    A shallow embedding of [QuerySetRule] (its methods [clean],
    [annotated_field_name], [apply_any_annotation], [parse_duration],
    [filter_kwargs] and [apply]) together with the Python and Django
    operations these methods call, and the properties of the rule
    compiler proved over that embedding.

    Layout:
    - [PyStr]     : the [str] methods the rule code calls;
    - [Py]        : exceptions, the error monad, [datetime] values;
    - [Re], [Dateparse] : reference models of [django.utils.dateparse];
    - [Drip]      : the methods of [QuerySetRule], over an abstract
                    duration parser and an abstract [Queryable];
    - [MemStore]  : an in-memory [Queryable] used for concrete runs;
    - the properties. *)

From Stdlib Require Import ZArith Lia Bool List Ascii String.
From Stdlib Require Import DecimalString.
From stdpp Require Import base option gmap strings.

Local Open Scope string_scope.

(* ===================================================================== *)
(** ** Python [str] methods *)
(* ===================================================================== *)

Module PyStr.

(** [s[n:]] *)
Fixpoint drop (n : nat) (s : string) : string :=
  match n, s with
  | O, _ => s
  | S _, EmptyString => EmptyString
  | S k, String _ s' => drop k s'
  end.

(** [s[:n]] *)
Fixpoint take (n : nat) (s : string) : string :=
  match n, s with
  | O, _ => EmptyString
  | S _, EmptyString => EmptyString
  | S k, String c s' => String c (take k s')
  end.

(** [s.startswith(p)] *)
Fixpoint startswith (p s : string) : bool :=
  match p, s with
  | EmptyString, _ => true
  | String _ _, EmptyString => false
  | String a p', String b s' => Ascii.eqb a b && startswith p' s'
  end.

(** [s.endswith(suf)]: [s] is [suf], or the tail of [s] ends with [suf]. *)
Fixpoint endswith (suf s : string) : bool :=
  String.eqb suf s ||
  match s with
  | EmptyString => false
  | String _ s' => endswith suf s'
  end.

(** [sub in s] *)
Fixpoint contains (sub s : string) : bool :=
  startswith sub s ||
  match s with
  | EmptyString => false
  | String _ s' => contains sub s'
  end.

(** [c in chars] for a single character [c]. *)
Fixpoint char_in (c : ascii) (chars : string) : bool :=
  match chars with
  | EmptyString => false
  | String a chars' => Ascii.eqb c a || char_in c chars'
  end.

(** [s.lstrip(chars)]: drops the longest prefix made of characters of
    [chars]. *)
Fixpoint lstrip (chars s : string) : string :=
  match s with
  | EmptyString => EmptyString
  | String c s' => if char_in c chars then lstrip chars s' else s
  end.

(** [s.replace(old, new)] for a non-empty [old] (the rule code only
    passes the literals ['now'], ['today'], ['F_'] and ['__']): every
    occurrence of [old], found left to right without overlap, becomes
    [new].  [skip] counts the characters of the occurrence just replaced
    that are still to be passed over. *)
Fixpoint replace_from (old new : string) (skip : nat) (s : string) : string :=
  match s with
  | EmptyString => EmptyString
  | String c s' =>
      match skip with
      | S k => replace_from old new k s'
      | O =>
          if startswith old s
          then new +:+ replace_from old new (String.length old - 1) s'
          else String c (replace_from old new 0 s')
      end
  end.

Definition replace (old new s : string) : string := replace_from old new 0 s.

(** The split point of [s.rpartition(sep)]: the text before and after the
    last occurrence of [sep], if there is one.  An occurrence further to
    the right (in the tail) wins over one at the head. *)
Fixpoint rsplit_last (sep s : string) : option (string * string) :=
  match s with
  | EmptyString => None
  | String c s' =>
      match rsplit_last sep s' with
      | Some (h, t) => Some (String c h, t)
      | None =>
          if startswith sep s then Some (EmptyString, drop (String.length sep) s)
          else None
      end
  end.

(** [s.rpartition(sep)] for a non-empty [sep] (Python raises
    [ValueError] on an empty one; the rule code passes ['__']). *)
Definition rpartition (sep s : string) : string * string * string :=
  match rsplit_last sep s with
  | Some (h, t) => (h, sep, t)
  | None => (EmptyString, EmptyString, s)
  end.

(** [sep.join(parts)] *)
Fixpoint join (sep : string) (parts : list string) : string :=
  match parts with
  | [] => EmptyString
  | [p] => p
  | p :: rest => p +:+ sep +:+ join sep rest
  end.

(** [c * k] for a one-character string [c]. *)
Fixpoint repeat_char (c : ascii) (k : nat) : string :=
  match k with
  | O => EmptyString
  | S k' => String c (repeat_char c k')
  end.

End PyStr.

Import PyStr.

(* ===================================================================== *)
(** ** Python values: exceptions, results, [datetime] *)
(* ===================================================================== *)

Module Py.

(** The exceptions that travel through the rule code.  The first four are
    the classes the embedding raises itself; [LibraryError cls text] is
    any other subclass of [Exception] raised by a collaborator, given by
    its class name and its [str(e)]; [NonException] stands for the
    classes that derive from [BaseException] only ([KeyboardInterrupt],
    [SystemExit], [GeneratorExit]). *)
Inductive exn : Type :=
| ValueError (msg : string)
| TypeError (msg : string)
| OverflowError (msg : string)
| ValidationError (msg : string)
| LibraryError (cls text : string)
| NonException (cls text : string).

(** [type(e).__name__] *)
Definition type_name (e : exn) : string :=
  match e with
  | ValueError _ => "ValueError"
  | TypeError _ => "TypeError"
  | OverflowError _ => "OverflowError"
  | ValidationError _ => "ValidationError"
  | LibraryError cls _ => cls
  | NonException cls _ => cls
  end.

(** [str(e)]; a [ValidationError] built from one message prints as the
    list of its messages. *)
Definition exc_str (e : exn) : string :=
  match e with
  | ValueError msg | TypeError msg | OverflowError msg => msg
  | ValidationError msg => "['" +:+ msg +:+ "']"
  | LibraryError _ text | NonException _ text => text
  end.

(** [isinstance(e, Exception)] *)
Definition is_Exception (e : exn) : bool :=
  match e with
  | NonException _ _ => false
  | _ => true
  end.

(** A call either returns a value or raises. *)
Inductive result (A : Type) : Type :=
| Ok (a : A)
| Raise (e : exn).
Arguments Ok {A} a.
Arguments Raise {A} e.

Definition bind {A B : Type} (m : result A) (k : A -> result B) : result B :=
  match m with
  | Ok a => k a
  | Raise e => Raise e
  end.

(** [try: body  except Exception as e: handler(e)] *)
Definition try_except {A : Type} (body : result A) (handler : exn -> result A)
  : result A :=
  match body with
  | Ok a => Ok a
  | Raise e => if is_Exception e then handler e else Raise e
  end.

Definition raised {A : Type} (m : result A) : bool :=
  match m with
  | Ok _ => false
  | Raise _ => true
  end.

(** *** [datetime.timedelta], [datetime.date], [datetime.datetime]

    A [timedelta] is its total number of microseconds; Python keeps it
    normalised as days, seconds and microseconds.  A [date] is its
    proleptic Gregorian ordinal ([date.toordinal()], 1 for 0001-01-01);
    a [datetime] is the ordinal of its day and the microseconds since
    midnight. *)

Local Open Scope Z_scope.

Definition US_PER_SECOND : Z := 1000000.
Definition US_PER_DAY : Z := 86400 * US_PER_SECOND.
Definition MAX_DELTA_DAYS : Z := 999999999.
Definition MAXORDINAL : Z := 3652059.

Record timedelta : Type := mk_timedelta { td_micro : Z }.
Record date : Type := mk_date { d_ordinal : Z }.
Record datetime : Type := mk_datetime { dt_ordinal : Z; dt_micro : Z }.

(** [td.days] *)
Definition td_days (d : timedelta) : Z := td_micro d / US_PER_DAY.

Definition string_of_Z (z : Z) : string := NilZero.string_of_int (Z.to_int z).

(** The range check every [timedelta] goes through when it is built. *)
Definition new_timedelta (micro : Z) : result timedelta :=
  let days := micro / US_PER_DAY in
  if (Z.abs days <=? MAX_DELTA_DAYS)%Z then Ok (mk_timedelta micro)
  else Raise (OverflowError
         ("days=" +:+ string_of_Z days +:+ "; must have magnitude <= 999999999")).

(** [timedelta(days=.., hours=.., minutes=.., seconds=.., microseconds=..)]
    on whole numbers. *)
Definition timedelta_of (days hours minutes seconds micro : Z) : result timedelta :=
  new_timedelta
    (days * US_PER_DAY
     + ((hours * 60 + minutes) * 60 + seconds) * US_PER_SECOND
     + micro)%Z.

Definition td_add (a b : timedelta) : result timedelta :=
  new_timedelta (td_micro a + td_micro b)%Z.

Definition td_scale (k : Z) (a : timedelta) : result timedelta :=
  new_timedelta (k * td_micro a)%Z.

(** The duration of [n] whole days. *)
Definition days (n : Z) : timedelta := mk_timedelta (n * US_PER_DAY).

Definition valid_datetime (t : datetime) : Prop :=
  (1 <= dt_ordinal t <= MAXORDINAL)%Z /\ (0 <= dt_micro t < US_PER_DAY)%Z.

(** [t.date()] *)
Definition date_of (t : datetime) : date := mk_date (dt_ordinal t).

(** [t + d] for a [datetime] [t], where [d] is what [parse_duration]
    returned: a [timedelta] or [None]. *)
Definition datetime_add (t : datetime) (d : option timedelta) : result datetime :=
  match d with
  | None =>
      Raise (TypeError
        "unsupported operand type(s) for +: 'datetime.datetime' and 'NoneType'")
  | Some d =>
      let total := (dt_ordinal t * US_PER_DAY + dt_micro t + td_micro d)%Z in
      let day := (total / US_PER_DAY)%Z in
      if ((1 <=? day) && (day <=? MAXORDINAL))%Z
      then Ok (mk_datetime day (total mod US_PER_DAY))
      else Raise (OverflowError "date value out of range")
  end.

(** [t + d] for a [date] [t]: only the days of [d] count. *)
Definition date_add (t : date) (d : option timedelta) : result date :=
  match d with
  | None =>
      Raise (TypeError
        "unsupported operand type(s) for +: 'datetime.date' and 'NoneType'")
  | Some d =>
      let day := (d_ordinal t + td_days d)%Z in
      if ((1 <=? day) && (day <=? MAXORDINAL))%Z
      then Ok (mk_date day)
      else Raise (OverflowError "date value out of range")
  end.

(** *** The calendar, to write and read dates as year, month, day *)

Definition is_leap (year : Z) : bool :=
  ((year mod 4 =? 0) && (negb (year mod 100 =? 0) || (year mod 400 =? 0)))%Z.

Definition days_before_year (year : Z) : Z :=
  let y := (year - 1)%Z in (y * 365 + y / 4 - y / 100 + y / 400)%Z.

Definition DAYS_IN_MONTH : list Z :=
  [31; 28; 31; 30; 31; 30; 31; 31; 30; 31; 30; 31]%Z.

Definition DAYS_BEFORE_MONTH : list Z :=
  [0; 31; 59; 90; 120; 151; 181; 212; 243; 273; 304; 334]%Z.

Definition month_entry (table : list Z) (month : Z) : Z :=
  nth (Z.to_nat (month - 1)) table 0%Z.

Definition days_before_month (year month : Z) : Z :=
  (month_entry DAYS_BEFORE_MONTH month
   + if (2 <? month) && is_leap year then 1 else 0)%Z.

(** [date(year, month, day).toordinal()] *)
Definition ymd2ord (year month day : Z) : Z :=
  (days_before_year year + days_before_month year month + day)%Z.

(** [date.fromordinal(n)] as [(year, month, day)] *)
Definition ord2ymd (n : Z) : Z * Z * Z :=
  let n := (n - 1)%Z in
  let n400 := (n / 146097)%Z in
  let n := (n mod 146097)%Z in
  let year := (n400 * 400 + 1)%Z in
  let n100 := (n / 36524)%Z in
  let n := (n mod 36524)%Z in
  let n4 := (n / 1461)%Z in
  let n := (n mod 1461)%Z in
  let n1 := (n / 365)%Z in
  let n := (n mod 365)%Z in
  let year := (year + n100 * 100 + n4 * 4 + n1)%Z in
  if ((n1 =? 4) || (n100 =? 4))%Z then ((year - 1)%Z, 12%Z, 31%Z)
  else
    let leapyear := ((n1 =? 3) && (negb (n4 =? 24) || (n100 =? 3)))%Z in
    let month := Z.shiftr (n + 50) 5 in
    let preceding :=
      (month_entry DAYS_BEFORE_MONTH month
       + if (2 <? month) && leapyear then 1 else 0)%Z in
    if (n <? preceding)%Z then
      let month := (month - 1)%Z in
      let preceding :=
        (preceding
         - (month_entry DAYS_IN_MONTH month
            + if (month =? 2) && leapyear then 1 else 0))%Z in
      (year, month, (n - preceding + 1)%Z)
    else (year, month, (n - preceding + 1)%Z).

Definition date_ymd (year month day : Z) : date :=
  mk_date (ymd2ord year month day).

Definition datetime_ymd_hms (year month day hour minute second micro : Z) : datetime :=
  mk_datetime (ymd2ord year month day)
    (((hour * 60 + minute) * 60 + second) * US_PER_SECOND + micro)%Z.

Definition ymd_of (d : date) : Z * Z * Z := ord2ymd (d_ordinal d).

End Py.

Import Py.

Declare Scope py_scope.
Delimit Scope py_scope with py.
Notation "'let*' x ':=' m 'in' k" := (bind m (fun x => k))
  (at level 10, x name, m at level 100, k at level 200)
  : py_scope.
Local Open Scope py_scope.

(* ===================================================================== *)
(** ** Regular expressions, as far as [django.utils.dateparse] uses them *)
(* ===================================================================== *)

Module Re.

(** The fragment of Python's [re] syntax in which the duration patterns
    are written. *)
Inductive re : Type :=
| Lit (text : string)                       (* literal text *)
| OneOf (chars : string)                    (* [chars] *)
| Digits (lo : nat) (hi : option nat)       (* \d{lo,hi}; \d+ is [Digits 1 None] *)
| Seq (r1 r2 : re)                          (* r1r2 *)
| Opt (r : re)                              (* (?:r)? *)
| Named (name : string) (r : re)            (* (?P<name>r) *)
| Ahead (r : re)                            (* (?=r) *)
| Eos.                                      (* $ *)

(** [match.groupdict()], as the list of the groups that took part. *)
Definition groups : Type := list (string * string).

Fixpoint group (g : groups) (name : string) : option string :=
  match g with
  | [] => None
  | (n, v) :: g' => if String.eqb n name then Some v else group g' name
  end.

Definition is_digit (c : ascii) : bool := char_in c "0123456789".

(** Greedy [\d{lo,hi}] at the head of [s]: takes one more digit while it
    may, and falls back to stopping (once [lo] digits are taken) when the
    rest of the pattern, [k], fails. *)
Fixpoint match_digits (lo : nat) (hi : option nat) (s : string)
    (k : string -> option groups) : option groups :=
  let stop := match lo with O => k s | S _ => None end in
  let more := match hi with Some O => false | _ => true end in
  match s with
  | String c s' =>
      if is_digit c && more then
        match match_digits (Nat.pred lo) (Nat.pred <$> hi) s' k with
        | Some g => Some g
        | None => stop
        end
      else stop
  | EmptyString => stop
  end.

(** Backtracking match of [r] at the head of [s], continued by [k] on
    the rest of the subject; alternatives are tried in the order of
    Python's engine (an optional part is tried present first). *)
Fixpoint match_at (r : re) (s : string) (g : groups)
    (k : string -> groups -> option groups) : option groups :=
  match r with
  | Lit text =>
      if startswith text s then k (drop (String.length text) s) g else None
  | OneOf chars =>
      match s with
      | String c rest => if char_in c chars then k rest g else None
      | EmptyString => None
      end
  | Digits lo hi => match_digits lo hi s (fun rest => k rest g)
  | Seq r1 r2 => match_at r1 s g (fun rest g1 => match_at r2 rest g1 k)
  | Opt r1 =>
      match match_at r1 s g k with
      | Some g' => Some g'
      | None => k s g
      end
  | Named name r1 =>
      match_at r1 s g (fun rest g1 =>
        k rest ((name, take (String.length s - String.length rest) s) :: g1))
  | Ahead r1 =>
      match match_at r1 s g (fun _ g1 => Some g1) with
      | Some g1 => k s g1
      | None => None
      end
  | Eos =>
      (* end of the subject, or just before a final newline *)
      if String.eqb s "" || String.eqb s (String "010"%char "") then k s g
      else None
  end.

(** [pattern.match(s)] *)
Definition re_match (pattern : re) (s : string) : option groups :=
  match_at pattern s [] (fun _ g => Some g).

Fixpoint seq (rs : list re) : re :=
  match rs with
  | [] => Lit ""
  | [r] => r
  | r :: rs' => Seq r (seq rs')
  end.

End Re.

(* ===================================================================== *)
(** ** Reference models of [django.utils.dateparse.parse_duration] *)
(* ===================================================================== *)

(** Modelled from the spec: the signed-duration grammar of its section
    4.1.  The rule code imports [parse_duration] from Django, which is
    not part of the repository, so the embedding of the rule code takes
    the parser as a parameter.  The two functions below are reference
    instances of it, used to run the rule code on concrete strings:
    [legacy] follows the regular expression and conversion of Django
    1.11 (the form ["D days, H:M:S.u"] only, so that a day count alone
    is rejected), [current] those of Django 3.0, which also reads
    PostgreSQL's day-time interval form (and with it a day count alone
    and the empty text).  The ISO 8601 form (an optional sign, then the
    letter P), whose fields may be fractions, is left out of both. *)

Module Dateparse.
Import Re.

Local Open Scope Z_scope.

Definition digits : re := Digits 1 None.
Definition signed_digits : re := Seq (Opt (Lit "-")) digits.

(** Django 1.11:
<<
  ^(?:(?P<days>-?\d+) (days?, )?)?((?:(?P<hours>-?\d+):)(?=\d+:\d+))?
  (?:(?P<minutes>-?\d+):)?(?P<seconds>-?\d+)
  (?:\.(?P<microseconds>\d{1,6})\d{0,6})?$
>> *)
Definition standard_duration_re_legacy : re :=
  seq [ Opt (seq [Named "days" signed_digits; Lit " ";
                  Opt (seq [Lit "day"; Opt (Lit "s"); Lit ", "])]);
        Opt (seq [Named "hours" signed_digits; Lit ":";
                  Ahead (seq [digits; Lit ":"; digits])]);
        Opt (seq [Named "minutes" signed_digits; Lit ":"]);
        Named "seconds" signed_digits;
        Opt (seq [Lit "."; Named "microseconds" (Digits 1 (Some 6%nat));
                  Digits 0 (Some 6%nat)]);
        Eos ].

(** Django 3.0:
<<
  ^(?:(?P<days>-?\d+) (days?, )?)?(?P<sign>-?)
  ((?:(?P<hours>\d+):)(?=\d+:\d+))?(?:(?P<minutes>\d+):)?(?P<seconds>\d+)
  (?:\.(?P<microseconds>\d{1,6})\d{0,6})?$
>> *)
Definition standard_duration_re : re :=
  seq [ Opt (seq [Named "days" signed_digits; Lit " ";
                  Opt (seq [Lit "day"; Opt (Lit "s"); Lit ", "])]);
        Named "sign" (Opt (Lit "-"));
        Opt (seq [Named "hours" digits; Lit ":";
                  Ahead (seq [digits; Lit ":"; digits])]);
        Opt (seq [Named "minutes" digits; Lit ":"]);
        Named "seconds" digits;
        Opt (seq [Lit "."; Named "microseconds" (Digits 1 (Some 6%nat));
                  Digits 0 (Some 6%nat)]);
        Eos ].

(** Django 3.0:
<<
  ^(?:(?P<days>-?\d+) (days? ?))?
  (?:(?P<sign>[-+])?(?P<hours>\d+):(?P<minutes>\d\d):(?P<seconds>\d\d)
  (?:\.(?P<microseconds>\d{1,6}))?)?$
>> *)
Definition postgres_interval_re : re :=
  seq [ Opt (seq [Named "days" signed_digits; Lit " ";
                  Lit "day"; Opt (Lit "s"); Opt (Lit " ")]);
        Opt (seq [Opt (Named "sign" (OneOf "-+"));
                  Named "hours" digits; Lit ":";
                  Named "minutes" (Digits 2 (Some 2%nat)); Lit ":";
                  Named "seconds" (Digits 2 (Some 2%nat));
                  Opt (seq [Lit ".";
                            Named "microseconds" (Digits 1 (Some 6%nat))])]);
        Eos ].

(** [p1.match(s) or p2.match(s) or ...] *)
Fixpoint first_match (patterns : list re) (s : string) : option groups :=
  match patterns with
  | [] => None
  | p :: ps =>
      match re_match p s with
      | Some g => Some g
      | None => first_match ps s
      end
  end.

(** [int(text)] for an optionally signed run of decimal digits. *)
Fixpoint digits_value (acc : Z) (text : string) : Z :=
  match text with
  | EmptyString => acc
  | String c rest =>
      digits_value (10 * acc + Z.of_N (N_of_ascii c) - 48) rest
  end.

Definition number (text : string) : Z :=
  match text with
  | String "-"%char rest => - digits_value 0 rest
  | _ => digits_value 0 text
  end.

(** [text.ljust(6, '0')] *)
Definition ljust6 (text : string) : string :=
  text +:+ repeat_char "0"%char (6 - String.length text)%nat.

(** [float(kw[name])] when the group took part, [0] when it did not:
    the default of the matching [timedelta] argument. *)
Definition field (g : groups) (name : string) : Z :=
  match group g name with
  | Some text => number text
  | None => 0
  end.

(** The microseconds argument: padded to six digits, and negated when
    the seconds group carries a minus sign. *)
Definition micro_field (g : groups) : Z :=
  match group g "microseconds" with
  | Some text =>
      let us := number (ljust6 text) in
      match group g "seconds" with
      | Some sec => if startswith "-" sec then - us else us
      | None => us
      end
  | None => 0
  end.

(** [-1 if kw.pop('sign', '+') == '-' else 1] *)
Definition sign_of (g : groups) : Z :=
  match group g "sign" with
  | Some "-" => -1
  | _ => 1
  end.

(** Modelled from the spec: the duration parser, as Django 1.11 has it:
    [sign * timedelta] of all the groups that took part, passed by
    name. *)
Definition legacy (value : string) : result (option timedelta) :=
  match re_match standard_duration_re_legacy value with
  | None => Ok None
  | Some g =>
      let* d := timedelta_of (field g "days") (field g "hours")
                  (field g "minutes") (field g "seconds") (micro_field g) in
      let* r := td_scale (sign_of g) d in
      Ok (Some r)
  end.

(** Modelled from the spec: the duration parser, as Django 3.0 has it:
    [days + sign * timedelta] of the other groups, [days] being taken
    out of the groups first. *)
Definition current (value : string) : result (option timedelta) :=
  match first_match [standard_duration_re; postgres_interval_re] value with
  | None => Ok None
  | Some g =>
      let* dd := timedelta_of (field g "days") 0 0 0 0 in
      let* d := timedelta_of 0 (field g "hours") (field g "minutes")
                  (field g "seconds") (micro_field g) in
      let* sd := td_scale (sign_of g) d in
      let* r := td_add dd sd in
      Ok (Some r)
  end.

End Dateparse.

(* ===================================================================== *)
(** ** [drip/models.py]: [QuerySetRule] *)
(* ===================================================================== *)

Module Drip.

(** [models.Count(expression, distinct=...)] *)
Inductive aggregate : Type :=
| Count (expression : string) (distinct : bool).

(** What [filter_kwargs] binds to the lookup key: the raw string, a
    boolean, a [datetime], a [date], or [models.F(name)]. *)
Inductive value : Type :=
| Str (s : string)
| Bool (b : bool)
| DateTime (t : datetime)
| Date (d : date)
| F (name : string).

(** The queryset the rule is applied to (Django's [QuerySet]): the three
    methods the rule code calls, each with its keyword arguments as the
    list of their (name, value) pairs. *)
Class Queryable (Q : Type) : Type := {
  qs_annotate : Q -> list (string * aggregate) -> result Q;
  qs_filter : Q -> list (string * value) -> result Q;
  qs_exclude : Q -> list (string * value) -> result Q
}.

(** The four fields of [QuerySetRule] that its methods read. *)
Record QuerySetRule : Type := mk_rule {
  method_type : string;
  field_name : string;
  lookup_type : string;
  field_value : string
}.

Section Rule.

Context {Q : Type} `{Queryable Q}.

(** [django.utils.dateparse.parse_duration]: a [timedelta], [None], or
    an exception of its own. *)
Variable django_parse_duration : string -> result (option timedelta).

(** [django.utils.timezone.now], the default clock. *)
Variable timezone_now : unit -> datetime.

(** [drip.utils.get_user_model()] and [User.objects.all()]. *)
Variable Model : Type.
Variable get_user_model : unit -> result Model.
Variable objects_all : Model -> Q.

Definition annotated_field_name (self : QuerySetRule) : string :=
  let field_name := field_name self in
  if endswith "__count" field_name then
    let '(agg, _, _) := rpartition "__" field_name in
    "num_" +:+ replace "__" "_" agg
  else field_name.

Definition apply_any_annotation (self : QuerySetRule) (qs : Q) : result Q :=
  if endswith "__count" (field_name self) then
    let field_name := annotated_field_name self in
    let '(agg, _, _) := rpartition "__" (Drip.field_name self) in
    qs_annotate qs [(field_name, Count agg true)]
  else Ok qs.

Definition parse_duration (value : string) : result (option timedelta) :=
  let value := lstrip "+" value in
  let* duration := django_parse_duration value in
  match duration with
  | None =>
      if negb (contains "," value) then
        (* django parse_duration requires 'x days, S' *)
        let* duration := django_parse_duration (value +:+ ", 0") in
        match duration with
        | None => Raise (ValueError ("Could not parse " +:+ value))
        | Some _ => Ok duration
        end
      else Ok duration
  | Some _ => Ok duration
  end.

Definition filter_kwargs (self : QuerySetRule) (qs : Q) (now : unit -> datetime)
  : result (list (string * value)) :=
  (* Support Count() as m2m__count *)
  let field_name := annotated_field_name self in
  let field_name := join "__" [field_name; lookup_type self] in
  let field_value := Str (Drip.field_value self) in
  (* set time deltas and dates *)
  let* field_value :=
    if startswith "now" (Drip.field_value self) then
      let field_value := replace "now" "" (Drip.field_value self) in
      let t := now tt in
      let* d := parse_duration field_value in
      let* v := datetime_add t d in
      Ok (DateTime v)
    else if startswith "today" (Drip.field_value self) then
      let field_value := replace "today" "" (Drip.field_value self) in
      let t := date_of (now tt) in
      let* d := parse_duration field_value in
      let* v := date_add t d in
      Ok (Date v)
    else Ok field_value in
  (* F expressions *)
  let field_value :=
    if startswith "F_" (Drip.field_value self)
    then F (replace "F_" "" (Drip.field_value self))
    else field_value in
  (* set booleans *)
  let field_value :=
    if String.eqb (Drip.field_value self) "True" then Bool true
    else field_value in
  let field_value :=
    if String.eqb (Drip.field_value self) "False" then Bool false
    else field_value in
  Ok [(field_name, field_value)].

Definition apply (self : QuerySetRule) (qs : Q) (now : unit -> datetime)
  : result Q :=
  let* kwargs := filter_kwargs self qs now in
  let* qs := apply_any_annotation self qs in
  if String.eqb (method_type self) "filter" then qs_filter qs kwargs
  else if String.eqb (method_type self) "exclude" then qs_exclude qs kwargs
  else (* catch as default *) qs_filter qs kwargs.

Definition clean (self : QuerySetRule) : result unit :=
  let* User := get_user_model tt in
  try_except
    (let* _ := apply self (objects_all User) timezone_now in Ok tt)
    (fun e =>
       Raise (ValidationError
                (type_name e +:+ " raised trying to apply rule: " +:+ exc_str e))).

End Rule.

End Drip.

(* ===================================================================== *)
(** ** An in-memory [Queryable] *)
(* ===================================================================== *)

(** Modelled from the spec: the Queryable collaborator of its section
    6 (filter, exclude, annotate).  Django's [QuerySet] is not part of
    the repository either, and the embedding of the rule code is stated
    over the class [Queryable].  This module is a small store with the
    same three methods, used to run rules on concrete collections: rows
    are maps from field names to cells, a schema gives the kind of every
    field, and annotations are kept in a dictionary keyed by alias, as
    Django's [Query.annotations] is.  It evaluates at once instead of
    lazily, has no joins (a field name is one segment) and no
    regular-expression lookups. *)

Module MemStore.
Import Drip.

Local Open Scope Z_scope.

Inductive kind : Type := KInt | KText | KBool | KDate | KDateTime | KRelation.

Inductive cell : Type :=
| Int (z : Z)
| Text (s : string)
| Flag (b : bool)
| Day (d : date)
| Instant (t : datetime)
| Related (ids : list Z).

Record queryset : Type := mk_queryset {
  schema : gmap string kind;
  rows : list (gmap string cell);
  annotations : gmap string aggregate
}.

Definition FieldError (text : string) : exn := LibraryError "FieldError" text.

(** The kind of the field or annotation called [name]. *)
Definition resolve (qs : queryset) (name : string) : result kind :=
  match annotations qs !! name with
  | Some _ => Ok KInt
  | None =>
      match schema qs !! name with
      | Some k => Ok k
      | None =>
          Raise (FieldError
            ("Cannot resolve keyword '" +:+ name +:+ "' into field."))
      end
  end.

(** Modelled from the spec: [annotate(alias, aggregation_spec)].  As in
    Django, an alias may not shadow a model field, the aggregated
    relation must exist, and the annotation is stored under its alias,
    replacing an earlier one of that name. *)
Definition annotate1 (qs : queryset) (kw : string * aggregate) : result queryset :=
  let '(alias, Count rel distinct) := kw in
  match schema qs !! alias with
  | Some _ =>
      Raise (ValueError
        ("The annotation '" +:+ alias +:+ "' conflicts with a field on the model."))
  | None =>
      let* _ := resolve qs rel in
      Ok (mk_queryset (schema qs) (rows qs)
            (<[alias := Count rel distinct]> (annotations qs)))
  end.

Fixpoint annotate (qs : queryset) (kwargs : list (string * aggregate))
  : result queryset :=
  match kwargs with
  | [] => Ok qs
  | kw :: rest => let* qs' := annotate1 qs kw in annotate qs' rest
  end.

(** The value of an aggregate on one row. *)
Definition aggregate_on (row : gmap string cell) (a : aggregate) : cell :=
  let '(Count rel distinct) := a in
  match row !! rel with
  | Some (Related ids) =>
      Int (Z.of_nat (List.length (if distinct then List.nodup Z.eq_dec ids else ids)))
  | Some _ => Int 1
  | None => Int 0
  end.

(** The cell of a row under a field name or an annotation alias. *)
Definition row_field (qs : queryset) (row : gmap string cell) (name : string)
  : option cell :=
  match annotations qs !! name with
  | Some a => Some (aggregate_on row a)
  | None => row !! name
  end.

(** [int(text)] *)
Fixpoint all_digits (text : string) : bool :=
  match text with
  | EmptyString => true
  | String c rest => Re.is_digit c && all_digits rest
  end.

Definition parse_int (text : string) : option Z :=
  let body := match text with String "-"%char rest => rest | _ => text end in
  if all_digits body && negb (String.eqb body "")
  then Some (Dateparse.number text) else None.

(** The right-hand side of a lookup: a constant, or another field of the
    same row. *)
Inductive operand : Type :=
| Const (c : cell)
| Ref (name : string).

(** The value given to a lookup, prepared for a field of kind [k]. *)
Definition prepare (qs : queryset) (name : string) (k : kind) (v : value)
  : result operand :=
  match v with
  | F other => let* _ := resolve qs other in Ok (Ref other)
  | Bool b => Ok (Const (Flag b))
  | DateTime t => Ok (Const (Instant t))
  | Date d => Ok (Const (Day d))
  | Str s =>
      match k with
      | KText => Ok (Const (Text s))
      | KInt | KRelation =>
          match parse_int s with
          | Some z => Ok (Const (Int z))
          | None =>
              Raise (ValueError
                ("Field '" +:+ name +:+ "' expected a number but got '"
                 +:+ s +:+ "'."))
          end
      | KBool | KDate | KDateTime =>
          Raise (LibraryError "ValidationError"
                   ("['" +:+ s +:+ "' value has an invalid format.']"))
      end
  end.

Definition lower_char (c : ascii) : ascii :=
  let n := N_of_ascii c in
  if ((65 <=? n) && (n <=? 90))%N then ascii_of_N (n + 32) else c.

Fixpoint lower (s : string) : string :=
  match s with
  | EmptyString => EmptyString
  | String c s' => String (lower_char c) (lower s')
  end.

(** A number to order a cell by, for the cells that have an order. *)
Definition rank (c : cell) : option Z :=
  match c with
  | Int z => Some z
  | Day d => Some (d_ordinal d * US_PER_DAY)
  | Instant t => Some (dt_ordinal t * US_PER_DAY + dt_micro t)
  | Flag b => Some (if b then 1 else 0)
  | Text _ | Related _ => None
  end.

Definition ORDER_LOOKUPS : list string := ["exact"; "gt"; "gte"; "lt"; "lte"]%string.

Definition TEXT_LOOKUPS : list string :=
  ["exact"; "iexact"; "contains"; "icontains"; "startswith"; "istartswith";
   "endswith"; "iendswith"]%string.

Definition is_in (x : string) (l : list string) : bool :=
  existsb (String.eqb x) l.

(** Does [lhs <lookup> rhs] hold? *)
Definition holds (lookup : string) (lhs rhs : cell) : bool :=
  match lhs, rhs with
  | Text a, Text b =>
      if String.eqb lookup "exact" then String.eqb a b
      else if String.eqb lookup "iexact" then String.eqb (lower a) (lower b)
      else if String.eqb lookup "contains" then contains b a
      else if String.eqb lookup "icontains" then contains (lower b) (lower a)
      else if String.eqb lookup "startswith" then startswith b a
      else if String.eqb lookup "istartswith" then startswith (lower b) (lower a)
      else if String.eqb lookup "endswith" then endswith b a
      else if String.eqb lookup "iendswith" then endswith (lower b) (lower a)
      else false
  | _, _ =>
      match rank lhs, rank rhs with
      | Some a, Some b =>
          if String.eqb lookup "exact" then a =? b
          else if String.eqb lookup "gt" then b <? a
          else if String.eqb lookup "gte" then b <=? a
          else if String.eqb lookup "lt" then a <? b
          else if String.eqb lookup "lte" then a <=? b
          else false
      | _, _ => false
      end
  end.

(** One keyword argument of [filter]/[exclude], checked against the
    schema: the field, the lookup and the prepared right-hand side. *)
Definition compile1 (qs : queryset) (kw : string * value)
  : result (string * string * operand) :=
  let '(key, v) := kw in
  let '(name, lookup) :=
    match rpartition "__" key with
    | (_, EmptyString, _) => (key, "exact"%string)
    | (name, _, lookup) => (name, lookup)
    end in
  let* k := resolve qs name in
  let supported :=
    match k with
    | KText => is_in lookup TEXT_LOOKUPS
    | _ => is_in lookup ORDER_LOOKUPS
    end in
  if supported then
    let* rhs := prepare qs name k v in
    Ok (name, lookup, rhs)
  else
    Raise (FieldError ("Unsupported lookup '" +:+ lookup +:+ "'.")).

Fixpoint compile (qs : queryset) (kwargs : list (string * value))
  : result (list (string * string * operand)) :=
  match kwargs with
  | [] => Ok []
  | kw :: rest =>
      let* p := compile1 qs kw in
      let* ps := compile qs rest in
      Ok (p :: ps)
  end.

Definition satisfies (qs : queryset) (row : gmap string cell)
    (p : string * string * operand) : bool :=
  let '(name, lookup, rhs) := p in
  match row_field qs row name,
        match rhs with Const c => Some c | Ref other => row_field qs row other end
  with
  | Some a, Some b => holds lookup a b
  | _, _ => false
  end.

(** Modelled from the spec: [filter(predicate)] keeps the rows on which
    every keyword argument holds ([keep = true]); [exclude(predicate)]
    keeps the others.  The predicate is checked against the schema
    first, so that a wrong field or lookup raises on an empty
    collection too. *)
Definition select (keep : bool) (qs : queryset) (kwargs : list (string * value))
  : result queryset :=
  let* ps := compile qs kwargs in
  Ok (mk_queryset (schema qs)
        (List.filter (fun row => Bool.eqb (forallb (satisfies qs row) ps) keep)
                     (rows qs))
        (annotations qs)).

#[export] Instance memstore_queryable : Queryable queryset := {|
  qs_annotate := annotate;
  qs_filter := select true;
  qs_exclude := select false
|}.

End MemStore.

(* ===================================================================== *)
(** ** Sample data for concrete runs *)
(* ===================================================================== *)

Module Samples.
Import Drip MemStore.

Local Open Scope Z_scope.

Definition person (age : Z) (orders : list Z) : gmap string cell :=
  {[ "age" := Int age; "orders" := Related orders ]}.

(** Three people, aged 15, 18 and 21. *)
Definition people : queryset :=
  mk_queryset
    {[ "age" := KInt; "name" := KText; "orders" := KRelation ]}
    [person 15 []; person 18 [7; 7; 9]; person 21 [4]]
    ∅.

(** A clock fixed at 2024-01-01T00:00:00. *)
Definition new_year_2024 (_ : unit) : datetime :=
  datetime_ymd_hms 2024 1 1 0 0 0 0.

(** [get_user_model] for a project whose user model is [people]. *)
Definition get_people (_ : unit) : result unit := Ok tt.
Definition all_people (_ : unit) : queryset := people.

End Samples.

(* ===================================================================== *)
(** ** [drip/models.py]: the choices and the [Drip] model *)
(* ===================================================================== *)

Module Campaign.

(** [METHOD_TYPES] and [LOOKUP_TYPES]: stored key, label. *)
Definition METHOD_TYPES : list (string * string) :=
  [ ("filter", "Filter");
    ("exclude", "Exclude") ].

Definition LOOKUP_TYPES : list (string * string) :=
  [ ("exact", "exactly");
    ("iexact", "exactly (case insensitive)");
    ("contains", "contains");
    ("icontains", "contains (case insensitive)");
    ("regex", "regex");
    ("iregex", "regex (case insensitive)");
    ("gt", "greater than");
    ("gte", "greater than or equal to");
    ("lt", "less than");
    ("lte", "less than or equal to");
    ("startswith", "starts with");
    ("istartswith", "starts with (case insensitive)");
    ("endswith", "ends with");
    ("iendswith", "ends with (case insensitive)") ].

(** The fields of [Drip] that its [drip] property reads; a nullable
    field holds [None] or a string. *)
Record Drip : Type := mk_drip {
  name : string;
  from_email : option string;
  from_email_name : option string;
  reply_to : option string;
  subject_template : option string;
  body_html_template : option string
}.

(** The keyword arguments [Drip.drip] gives to [DripBase]
    ([drip_model=self] apart). *)
Record DripBase_kwargs : Type := mk_kwargs {
  kw_name : string;
  kw_from_email : option string;
  kw_from_email_name : option string;
  kw_reply_to : option string;
  kw_subject_template : option string;
  kw_body_template : option string
}.

(** [x if x else None]: [None] and the empty string are both false. *)
Definition if_set (x : option string) : option string :=
  match x with
  | Some s => if String.eqb s "" then None else Some s
  | None => None
  end.

Definition drip (self : Drip) : DripBase_kwargs :=
  mk_kwargs (name self)
    (if_set (from_email self))
    (if_set (from_email_name self))
    (if_set (reply_to self))
    (if_set (subject_template self))
    (if_set (body_html_template self)).

End Campaign.

(* ===================================================================== *)
(** ** Vocabulary of the statements *)
(* ===================================================================== *)

Import Drip MemStore.

(** The one key of the predicate a rule compiles to: the effective field
    name, ["__"], the lookup. *)
Definition lookup_key (self : QuerySetRule) : string :=
  annotated_field_name self +:+ "__" +:+ lookup_type self.

(** The duration parser gives [d] for [text], as it stands or, failing
    that and [text] holding no comma, with [", 0"] appended. *)
Definition reads (lib : string -> result (option timedelta))
    (text : string) (d : timedelta) : Prop :=
  lib text = Ok (Some d)
  \/ (lib text = Ok None /\ contains "," text = false
      /\ lib (text +:+ ", 0") = Ok (Some d)).

(** The same rule with another method. *)
Definition with_method (m : string) (self : QuerySetRule) : QuerySetRule :=
  mk_rule m (field_name self) (lookup_type self) (field_value self).

(** How [Drip.drip] passes a nullable field on: a blank field ([None] or
    the empty string) goes as [None], any other goes as it is. *)
Definition blank_as_None (field arg : option string) : Prop :=
  arg <> Some ""
  /\ (arg = None <-> field = None \/ field = Some "")
  /\ (forall s, s <> "" -> field = Some s -> arg = Some s).

(* ===================================================================== *)
(** * Properties *)
(* ===================================================================== *)

(** ** Facts about the [str] methods *)

(** ** The models at work on small inputs *)

Example replace_now : replace "now" "" "now-7 days" = "-7 days".
Proof. reflexivity. Qed.

Example replace_every_occurrence : replace "__" "_" "a__b___c" = "a_b__c".
Proof. reflexivity. Qed.

Example rpartition_last : rpartition "__" "a__b__count" = ("a__b", "__", "count").
Proof. reflexivity. Qed.

Example rpartition_absent : rpartition "__" "age" = ("", "", "age").
Proof. reflexivity. Qed.

Example lstrip_plus : lstrip "+" "++3 days" = "3 days".
Proof. reflexivity. Qed.

Example join_two : join "__" ["age"; "gte"] = "age__gte".
Proof. reflexivity. Qed.

Example ordinals :
  ymd2ord 1 1 1 = 1%Z /\ ymd2ord 9999 12 31 = MAXORDINAL
  /\ ymd2ord 2024 1 1 = 738886%Z
  /\ ord2ymd 738889 = (2024, 1, 4)%Z
  /\ ord2ymd (ymd2ord 2024 2 29) = (2024, 2, 29)%Z
  /\ ord2ymd (ymd2ord 1900 12 31) = (1900, 12, 31)%Z.
Proof. repeat split; vm_compute; reflexivity. Qed.

(** The day count alone is what sets the two parsers apart; the empty
    text is a duration for [current] only. *)
Example parsers_on_day_counts :
  Dateparse.legacy "3 days" = Ok None
  /\ Dateparse.legacy "3 days, 0" = Ok (Some (days 3))
  /\ Dateparse.current "3 days" = Ok (Some (days 3))
  /\ Dateparse.legacy "-7 days, 0" = Ok (Some (days (-7)))
  /\ Dateparse.legacy "" = Ok None
  /\ Dateparse.legacy ", 0" = Ok None
  /\ Dateparse.current "" = Ok (Some (mk_timedelta 0))
  /\ Dateparse.current "3 days, soon" = Ok None.
Proof. repeat split; vm_compute; reflexivity. Qed.

Example parsers_on_clock_forms :
  Dateparse.current "4 15:30" = Ok (Some (mk_timedelta (346530000000)%Z))
  /\ Dateparse.current "1 day, 2:03:04.5"
     = Ok (Some (mk_timedelta (93784500000)%Z))
  /\ Dateparse.legacy "-15:30" = Ok (Some (mk_timedelta (-870000000)%Z))
  /\ Dateparse.current "-15:30" = Ok (Some (mk_timedelta (-930000000)%Z))
  /\ Dateparse.current "3 days 04:05:06"
     = Ok (Some (mk_timedelta (3 * 86400000000 + 14706000000)%Z))
  /\ raised (Dateparse.current "9999999999 days, 0") = true.
Proof. repeat split; vm_compute; reflexivity. Qed.

Lemma bind_Ok {A B : Type} (a : A) (k : A -> result B) : bind (Ok a) k = k a.
Proof. reflexivity. Qed.

Lemma bind_Raise {A B : Type} (e : exn) (k : A -> result B) :
  bind (Raise e) k = Raise e.
Proof. reflexivity. Qed.

Section StrFacts.

Lemma app_nil_l (s : string) : "" +:+ s = s.
Proof. reflexivity. Qed.

Lemma app_cons (a : ascii) (p s : string) :
  String a p +:+ s = String a (p +:+ s).
Proof. reflexivity. Qed.

Lemma startswith_app (p s : string) : startswith p (p +:+ s) = true.
Proof.
  induction p as [|a p IH]; [reflexivity|].
  rewrite app_cons. simpl. rewrite Ascii.eqb_refl. exact IH.
Qed.

Lemma startswith_split (p s : string) :
  startswith p s = true -> s = p +:+ drop (String.length p) s.
Proof.
  revert s. induction p as [|a p IH]; intros s Hs; [reflexivity|].
  destruct s as [|b s]; [discriminate|]. simpl in Hs.
  apply andb_true_iff in Hs as [Hab Hp].
  apply Ascii.eqb_eq in Hab. subst b.
  rewrite app_cons. simpl. f_equal. apply IH, Hp.
Qed.

Lemma drop_app (p s : string) : drop (String.length p) (p +:+ s) = s.
Proof. induction p as [|a p IH]; [reflexivity | exact IH]. Qed.

Lemma app_empty_r (s : string) : s +:+ "" = s.
Proof.
  induction s as [|a s IH]; [reflexivity|]. rewrite app_cons. now rewrite IH.
Qed.

Lemma app_assoc_str (a b c : string) : (a +:+ b) +:+ c = a +:+ (b +:+ c).
Proof.
  induction a as [|x a IH]; [reflexivity|]. rewrite !app_cons. now rewrite IH.
Qed.

Lemma length_app_str (a b : string) :
  String.length (a +:+ b) = (String.length a + String.length b)%nat.
Proof.
  induction a as [|x a IH]; [reflexivity|]. rewrite app_cons. simpl. now rewrite IH.
Qed.

Lemma endswith_refl (m : string) : endswith m m = true.
Proof. destruct m; simpl; rewrite ?String.eqb_refl, ?Ascii.eqb_refl; reflexivity. Qed.

Lemma endswith_app (p m : string) : endswith m (p +:+ m) = true.
Proof.
  induction p as [|a p IH].
  - apply endswith_refl.
  - rewrite app_cons. simpl. rewrite IH. apply orb_true_r.
Qed.

(** [endswith] is "has this suffix". *)
Lemma endswith_iff (m s : string) :
  endswith m s = true <-> exists p, s = p +:+ m.
Proof.
  split.
  - induction s as [|a s IH]; simpl; intros Hs.
    + rewrite orb_false_r in Hs. apply String.eqb_eq in Hs. now exists "".
    + apply orb_true_iff in Hs as [Hs|Hs].
      * apply String.eqb_eq in Hs. now exists "".
      * destruct (IH Hs) as [p ->]. now exists (String a p).
  - intros [p ->]. apply endswith_app.
Qed.

(** The last ["__"] of [R + "__count"] is the one before [count],
    whatever [R] holds. *)
Lemma rsplit_last_count (R : string) :
  rsplit_last "__" (R +:+ "__count") = Some (R, "count").
Proof.
  induction R as [|a R IH]; [reflexivity|].
  rewrite app_cons. simpl rsplit_last. now rewrite IH.
Qed.

Lemma rpartition_count (R : string) :
  rpartition "__" (R +:+ "__count") = (R, "__", "count").
Proof. unfold rpartition. now rewrite rsplit_last_count. Qed.

Lemma lstrip_repeat (c : ascii) (k : nat) (s : string) :
  lstrip (String c "") (repeat_char c k +:+ s) = lstrip (String c "") s.
Proof.
  induction k as [|k IH]; [reflexivity|].
  simpl repeat_char. rewrite app_cons. simpl. now rewrite Ascii.eqb_refl.
Qed.

(** The three equations of [str.replace] for a non-empty pattern. *)
Lemma replace_empty (old new : string) : replace old new "" = "".
Proof. reflexivity. Qed.

Lemma replace_from_skip (old new : string) (k : nat) (s : string) :
  replace_from old new k s = replace old new (drop k s).
Proof.
  revert s. induction k as [|k IH]; intros s; [reflexivity|].
  destruct s as [|c s]; [reflexivity|]. simpl. apply IH.
Qed.

Lemma replace_hit (old new s : string) :
  old <> "" -> startswith old s = true ->
  replace old new s = new +:+ replace old new (drop (String.length old) s).
Proof.
  intros Hold Hs. destruct s as [|c s].
  - destruct old; [congruence | discriminate].
  - unfold replace at 1. simpl replace_from. rewrite Hs.
    rewrite replace_from_skip. destruct old as [|o old]; [congruence|].
    simpl. now rewrite Nat.sub_0_r.
Qed.

Lemma replace_miss (old new : string) (c : ascii) (s : string) :
  startswith old (String c s) = false ->
  replace old new (String c s) = String c (replace old new s).
Proof. intros Hs. unfold replace. simpl replace_from. now rewrite Hs. Qed.

(** Without an occurrence of the pattern, [replace] changes nothing. *)
Lemma replace_absent (old new s : string) :
  contains old s = false -> replace old new s = s.
Proof.
  induction s as [|c s IH]; intros Hs; [reflexivity|].
  simpl in Hs. apply orb_false_iff in Hs as [Hhead Htail].
  rewrite replace_miss by exact Hhead. now rewrite IH.
Qed.

End StrFacts.

(** ** The rule methods, over any duration parser and any [Queryable] *)

Section RuleFacts.

Context {Q : Type} {HQ : Queryable Q}.
Variable lib : string -> result (option timedelta).

Lemma filter_kwargs_key (self : QuerySetRule) (qs : Q) (now : unit -> datetime)
    (kw : list (string * value)) :
  filter_kwargs lib self qs now = Ok kw ->
  exists v, kw = [(lookup_key self, v)].
Proof.
  unfold filter_kwargs. intros Hk.
  destruct (startswith "now" (field_value self)).
  - destruct (parse_duration lib _) as [d|e]; [|discriminate].
    simpl in Hk. destruct (datetime_add _ d) as [v|e]; [|discriminate].
    simpl in Hk. injection Hk as <-. eexists. reflexivity.
  - destruct (startswith "today" (field_value self)).
    + destruct (parse_duration lib _) as [d|e]; [|discriminate].
      simpl in Hk. destruct (date_add _ d) as [v|e]; [|discriminate].
      simpl in Hk. injection Hk as <-. eexists. reflexivity.
    + simpl in Hk. injection Hk as <-. eexists. reflexivity.
Qed.

(** A value that starts with ["F_"] starts with neither ["now"] nor
    ["today"] and is neither boolean literal, so only the [F] branch
    acts on it. *)
Lemma filter_kwargs_F (self : QuerySetRule) (qs : Q) (now : unit -> datetime) :
  startswith "F_" (field_value self) = true ->
  filter_kwargs lib self qs now
  = Ok [(lookup_key self, F (replace "F_" "" (field_value self)))].
Proof.
  intros HF. unfold filter_kwargs. rewrite HF.
  apply startswith_split in HF. rewrite HF. reflexivity.
Qed.

(** The alias of a count field, and the annotation asked for. *)
Lemma annotated_field_name_count (self : QuerySetRule) (R : string) :
  field_name self = R +:+ "__count" ->
  annotated_field_name self = "num_" +:+ replace "__" "_" R.
Proof.
  intros HR. unfold annotated_field_name.
  now rewrite HR, endswith_app, rpartition_count.
Qed.

Lemma apply_any_annotation_count (self : QuerySetRule) (R : string) (qs : Q) :
  field_name self = R +:+ "__count" ->
  apply_any_annotation self qs
  = qs_annotate qs [("num_" +:+ replace "__" "_" R, Count R true)].
Proof.
  intros HR. unfold apply_any_annotation.
  rewrite (annotated_field_name_count self R HR).
  now rewrite HR, endswith_app, rpartition_count.
Qed.

Lemma lookup_key_count (self : QuerySetRule) (R : string) :
  field_name self = R +:+ "__count" ->
  lookup_key self = "num_" +:+ replace "__" "_" R +:+ "__" +:+ lookup_type self.
Proof.
  intros HR. unfold lookup_key.
  rewrite (annotated_field_name_count self R HR). apply app_assoc_str.
Qed.

(** The branch taken by a value that starts with ["now"]. *)
Lemma filter_kwargs_now (self : QuerySetRule) (qs : Q) (now : unit -> datetime) :
  startswith "now" (field_value self) = true ->
  filter_kwargs lib self qs now
  = (let* d := parse_duration lib (replace "now" "" (field_value self)) in
     let* v := datetime_add (now tt) d in
     Ok [(lookup_key self, DateTime v)]).
Proof.
  intros Hn. unfold filter_kwargs. rewrite Hn. cbv zeta.
  destruct (parse_duration lib _) as [d|e]; [|reflexivity]. simpl bind.
  destruct (datetime_add (now tt) d) as [v|e]; [|reflexivity]. simpl bind.
  apply startswith_split in Hn. rewrite Hn. reflexivity.
Qed.

(** The branch taken by a value that starts with ["today"]. *)
Lemma filter_kwargs_today (self : QuerySetRule) (qs : Q) (now : unit -> datetime) :
  startswith "today" (field_value self) = true ->
  filter_kwargs lib self qs now
  = (let* d := parse_duration lib (replace "today" "" (field_value self)) in
     let* v := date_add (date_of (now tt)) d in
     Ok [(lookup_key self, Date v)]).
Proof.
  intros Hn. unfold filter_kwargs. rewrite Hn. cbv zeta.
  assert (Hnow : startswith "now" (field_value self) = false).
  { apply startswith_split in Hn. rewrite Hn. reflexivity. }
  rewrite Hnow.
  destruct (parse_duration lib _) as [d|e]; [|reflexivity]. simpl bind.
  destruct (date_add (date_of (now tt)) d) as [v|e]; [|reflexivity]. simpl bind.
  apply startswith_split in Hn. rewrite Hn. reflexivity.
Qed.

(** When ["F_"] occurs only as the prefix, the referenced field is the
    remainder. *)
Lemma replace_F_prefix (rest : string) :
  contains "F_" rest = false -> replace "F_" "" ("F_" +:+ rest) = rest.
Proof.
  intros Hr. rewrite replace_hit; [|discriminate|reflexivity].
  simpl drop. rewrite app_nil_l. now apply replace_absent.
Qed.

(** Without a comma, [parse_duration] never returns [None]: when the
    library rejects the text and the text with [", 0"] appended, a
    [ValueError] is raised. *)
Lemma parse_duration_no_comma_raises (value : string) :
  contains "," (lstrip "+" value) = false ->
  lib (lstrip "+" value) = Ok None ->
  lib (lstrip "+" value +:+ ", 0") = Ok None ->
  parse_duration lib value
  = Raise (ValueError ("Could not parse " +:+ lstrip "+" value)).
Proof.
  intros Hc H1 H2. unfold parse_duration. rewrite H1. simpl.
  rewrite Hc. simpl. rewrite H2. reflexivity.
Qed.

(** The two attempts of [parse_duration]. *)
Lemma parse_duration_reads (value : string) (d : timedelta) :
  reads lib (lstrip "+" value) d -> parse_duration lib value = Ok (Some d).
Proof.
  unfold parse_duration. intros [H1|[H1 [Hc H2]]]; rewrite H1; simpl.
  - reflexivity.
  - rewrite Hc. simpl. now rewrite H2.
Qed.

Lemma parse_duration_no_comma_not_None (value : string) :
  contains "," (lstrip "+" value) = false ->
  parse_duration lib value <> Ok None.
Proof.
  intros Hc. unfold parse_duration.
  destruct (lib (lstrip "+" value)) as [[d|]|e]; simpl; try discriminate.
  rewrite Hc. simpl.
  destruct (lib (lstrip "+" value +:+ ", 0")) as [[d|]|e]; simpl; discriminate.
Qed.

(** A method other than ['filter'] and ['exclude'] falls through both
    tests of [apply]. *)
Lemma apply_default (self : QuerySetRule) (qs : Q) (now : unit -> datetime) :
  method_type self <> "filter" ->
  method_type self <> "exclude" ->
  apply lib self qs now
  = (let* kwargs := filter_kwargs lib self qs now in
     let* qs' := apply_any_annotation self qs in
     qs_filter qs' kwargs).
Proof.
  intros Hf He. unfold apply.
  apply String.eqb_neq in Hf. apply String.eqb_neq in He.
  now rewrite Hf, He.
Qed.

Lemma apply_filter (self : QuerySetRule) (qs : Q) (now : unit -> datetime) :
  method_type self = "filter" ->
  apply lib self qs now
  = (let* kwargs := filter_kwargs lib self qs now in
     let* qs' := apply_any_annotation self qs in
     qs_filter qs' kwargs).
Proof. intros Hf. unfold apply. now rewrite Hf. Qed.

End RuleFacts.

(** ** The claims that hold for every duration parser and every store *)

(** C9. For every field name [R + "__count"] the annotation alias, which
    is also the effective field name of the predicate, is ["num_" + R]
    with each ["__"] of [R] replaced by ["_"], and the annotation asked
    for is under that alias; for a field name that does not end in
    ["__count"] the effective field name is the field name unchanged and
    no annotation is asked for (the collection comes back as it was). *)
Theorem C9_effective_field_name :
  forall (Q : Type) (HQ : Queryable Q) (self : QuerySetRule) (qs : Q),
    (forall R : string,
        field_name self = R +:+ "__count" ->
        annotated_field_name self = "num_" +:+ replace "__" "_" R
        /\ lookup_key self
           = "num_" +:+ replace "__" "_" R +:+ "__" +:+ lookup_type self
        /\ apply_any_annotation self qs
           = qs_annotate qs [("num_" +:+ replace "__" "_" R, Count R true)])
    /\ (endswith "__count" (field_name self) = false ->
        annotated_field_name self = field_name self
        /\ lookup_key self = field_name self +:+ "__" +:+ lookup_type self
        /\ apply_any_annotation self qs = Ok qs).
Proof.
  intros Q HQ self qs. split.
  - intros R HR. split; [|split].
    + now apply annotated_field_name_count.
    + now apply lookup_key_count.
    + now apply apply_any_annotation_count.
  - intros Hend. unfold lookup_key, annotated_field_name, apply_any_annotation.
    rewrite Hend. repeat split.
Qed.

Lemma C9_effective_field_name_witness :
  (annotated_field_name (mk_rule "filter" "orders__items__count" "gt" "0")
   = "num_orders_items"
   /\ apply_any_annotation (mk_rule "filter" "orders__items__count" "gt" "0")
        Samples.people
      = qs_annotate Samples.people
          [("num_orders_items", Count "orders__items" true)])
  /\ (annotated_field_name (mk_rule "filter" "age" "gte" "18") = "age"
      /\ apply_any_annotation (mk_rule "filter" "age" "gte" "18") Samples.people
         = Ok Samples.people).
Proof.
  split.
  - pose proof (proj1 (C9_effective_field_name _ _
                  (mk_rule "filter" "orders__items__count" "gt" "0")
                  Samples.people) "orders__items" eq_refl) as [H1 [_ H3]].
    split; [exact H1 | exact H3].
  - pose proof (proj2 (C9_effective_field_name _ _
                  (mk_rule "filter" "age" "gte" "18") Samples.people)
                  eq_refl) as [H1 [_ H3]].
    split; [exact H1 | exact H3].
Defined.

(** C10. [parse_duration] strips every leading ["+"]: [k] plus signs in
    front of any text [s] change nothing of what it returns or raises. *)
Theorem C10_leading_plus_signs_stripped :
  forall (lib : string -> result (option timedelta)) (k : nat) (s : string),
    parse_duration lib (repeat_char "+" k +:+ s) = parse_duration lib s.
Proof.
  intros lib k s. unfold parse_duration. now rewrite lstrip_repeat.
Qed.

Example two_plus_signs :
  parse_duration Dateparse.legacy "++3 days" = Ok (Some (days 3))
  /\ parse_duration Dateparse.legacy "3 days" = Ok (Some (days 3))
  /\ parse_duration Dateparse.current "++3 days" = Ok (Some (days 3)).
Proof. repeat split; vm_compute; reflexivity. Qed.

(** C2 (the code departs from the claim). When the text left after
    stripping ["+"] holds a comma and the library rejects it, the retry
    is skipped and so is the [raise] nested under it: [parse_duration]
    returns [None] to its caller instead of raising. *)
Theorem C2_rejected_text_with_comma_returns_None :
  forall (lib : string -> result (option timedelta)) (value : string),
    contains "," (lstrip "+" value) = true ->
    lib (lstrip "+" value) = Ok None ->
    parse_duration lib value = Ok None.
Proof.
  intros lib value Hc Hlib. unfold parse_duration.
  rewrite Hlib. simpl. rewrite Hc. reflexivity.
Qed.

Lemma C2_rejected_text_with_comma_returns_None_witness :
  parse_duration Dateparse.current "+3 days, soon" = Ok None.
Proof.
  apply (C2_rejected_text_with_comma_returns_None Dateparse.current
           "+3 days, soon"); vm_compute; reflexivity.
Defined.

(** What the caller of [parse_duration] then meets: the [None] reaches
    the addition, which raises a [TypeError]. *)
Lemma rejected_text_with_comma_in_rule :
  forall (m f l : string),
    filter_kwargs Dateparse.current (mk_rule m f l "now+3 days, soon")
      Samples.people Samples.new_year_2024
    = Raise (TypeError
        "unsupported operand type(s) for +: 'datetime.datetime' and 'NoneType'").
Proof. intros m f l. vm_compute. reflexivity. Qed.

(** C4. A rule whose method is neither ['filter'] nor ['exclude'] is
    applied as an inclusion: [apply] is the [filter] call of the store on
    the compiled predicate, and agrees in every outcome with the same
    rule under the method ['filter'], so the method itself raises
    nothing. *)
Theorem C4_unrecognised_method_is_include :
  forall (Q : Type) (HQ : Queryable Q)
         (lib : string -> result (option timedelta))
         (self : QuerySetRule) (qs : Q) (now : unit -> datetime),
    method_type self <> "filter" ->
    method_type self <> "exclude" ->
    apply lib self qs now
    = (let* kwargs := filter_kwargs lib self qs now in
       let* qs' := apply_any_annotation self qs in
       qs_filter qs' kwargs)
    /\ apply lib self qs now = apply lib (with_method "filter" self) qs now.
Proof.
  intros Q HQ lib self qs now Hf He. split.
  - now apply apply_default.
  - rewrite apply_default by assumption.
    rewrite (apply_filter lib (with_method "filter" self)) by reflexivity.
    reflexivity.
Qed.

Lemma C4_unrecognised_method_is_include_witness :
  apply Dateparse.current (mk_rule "keep" "age" "gte" "18")
    Samples.people Samples.new_year_2024
  = apply Dateparse.current (mk_rule "filter" "age" "gte" "18")
      Samples.people Samples.new_year_2024.
Proof.
  apply (C4_unrecognised_method_is_include _ _ Dateparse.current
           (mk_rule "keep" "age" "gte" "18")); discriminate.
Defined.

(** C5. Whenever applying the rule to all users raises an exception [e]
    (an instance of [Exception]), [clean] raises a [ValidationError]
    whose message names the class of [e] and carries its text; [e]
    itself does not reach the caller. *)
Theorem C5_clean_reports_ValidationError :
  forall (Q : Type) (HQ : Queryable Q)
         (lib : string -> result (option timedelta))
         (timezone_now : unit -> datetime)
         (Model : Type) (get_user_model : unit -> result Model)
         (objects_all : Model -> Q)
         (self : QuerySetRule) (User : Model) (e : exn),
    get_user_model tt = Ok User ->
    apply lib self (objects_all User) timezone_now = Raise e ->
    is_Exception e = true ->
    clean lib timezone_now Model get_user_model objects_all self
    = Raise (ValidationError
               (type_name e +:+ " raised trying to apply rule: " +:+ exc_str e))
    /\ clean lib timezone_now Model get_user_model objects_all self <> Raise e.
Proof.
  intros Q HQ lib tznow Model get objs self User e Hget Happly He.
  assert (Hclean : clean lib tznow Model get objs self
                   = Raise (ValidationError
                       (type_name e +:+ " raised trying to apply rule: "
                        +:+ exc_str e))).
  { unfold clean. rewrite Hget. simpl. rewrite Happly. simpl.
    unfold try_except. now rewrite He. }
  split; [exact Hclean|].
  rewrite Hclean. intros Heq. injection Heq as Heq.
  (* [e] would be a [ValidationError] whose text holds its own text *)
  destruct e as [m|m|m|m|c m|c m]; try discriminate.
  injection Heq as Heq. apply (f_equal String.length) in Heq.
  simpl in Heq. rewrite !length_app_str in Heq. simpl in Heq. lia.
Qed.

Lemma C5_clean_reports_ValidationError_witness :
  clean Dateparse.current Samples.new_year_2024 unit
    Samples.get_people Samples.all_people
    (mk_rule "filter" "age" "gte" "nowhere")
  = Raise (ValidationError
             "ValueError raised trying to apply rule: Could not parse here").
Proof.
  apply (C5_clean_reports_ValidationError _ _ Dateparse.current
           Samples.new_year_2024 unit Samples.get_people Samples.all_people
           (mk_rule "filter" "age" "gte" "nowhere") tt
           (ValueError "Could not parse here"));
    vm_compute; reflexivity.
Defined.

(** C6 (the code departs from the claim). For the raw value
    ["F_PDF_url"] the rule compiles to a reference to the field
    ["PDurl"]: [replace] removes every ["F_"] of the value, the one
    inside the field name too, and not the prefix alone. *)
Theorem C6_F_reference_loses_inner_F :
  forall (Q : Type) (qs : Q) (lib : string -> result (option timedelta))
         (now : unit -> datetime) (m f l : string),
    filter_kwargs lib (mk_rule m f l "F_PDF_url") qs now
    = Ok [(lookup_key (mk_rule m f l "F_PDF_url"), F "PDurl")]
    /\ F "PDurl" <> F (drop 2 "F_PDF_url").
Proof.
  intros Q qs lib now m f l. split.
  - rewrite filter_kwargs_F by reflexivity. reflexivity.
  - discriminate.
Qed.

(** ** Dates and instants *)

Section DatetimeFacts.

Local Open Scope Z_scope.

Lemma datetime_add_zero (t : datetime) :
  valid_datetime t -> datetime_add t (Some (mk_timedelta 0)) = Ok t.
Proof.
  destruct t as [o us]. unfold valid_datetime, datetime_add. simpl.
  intros [[Hlo Hhi] Hus].
  assert (HD : 0 < US_PER_DAY) by reflexivity.
  rewrite Z.add_0_r.
  assert (Hq : (o * US_PER_DAY + us) / US_PER_DAY = o).
  { symmetry. apply Z.div_unique with (r := us); [left; exact Hus | lia]. }
  assert (Hr : (o * US_PER_DAY + us) mod US_PER_DAY = us).
  { symmetry. apply Z.mod_unique with (q := o); [left; exact Hus | lia]. }
  rewrite Hq, Hr.
  assert (H1 : (1 <=? o) = true) by (apply Z.leb_le; lia).
  assert (H2 : (o <=? MAXORDINAL) = true) by (apply Z.leb_le; lia).
  now rewrite H1, H2.
Qed.

Lemma new_year_2024_valid : valid_datetime (Samples.new_year_2024 tt).
Proof. unfold valid_datetime. vm_compute. repeat split; discriminate. Qed.

End DatetimeFacts.

(** ** Relative values *)

(** C1. For the raw value ["now"] the remainder after the prefix is
    empty; with a duration parser for which the empty text is the zero
    duration, the rule compiles, without an error, to the predicate that
    binds its key to the instant [now()] itself. *)
Theorem C1_now_alone_is_the_clock :
  forall (Q : Type) (qs : Q) (lib : string -> result (option timedelta))
         (now : unit -> datetime) (m f l : string),
    reads lib "" (mk_timedelta 0) ->
    valid_datetime (now tt) ->
    replace "now" "" "now" = ""
    /\ filter_kwargs lib (mk_rule m f l "now") qs now
       = Ok [(lookup_key (mk_rule m f l "now"), DateTime (now tt))].
Proof.
  intros Q qs lib now m f l Hlib Hnow. split; [reflexivity|].
  rewrite filter_kwargs_now by reflexivity.
  change (replace "now" "" (field_value (mk_rule m f l "now"))) with "".
  rewrite (parse_duration_reads lib "" _ Hlib), bind_Ok.
  rewrite (datetime_add_zero _ Hnow). reflexivity.
Qed.

Lemma C1_now_alone_is_the_clock_witness :
  filter_kwargs Dateparse.current (mk_rule "filter" "last_login" "lte" "now")
    Samples.people Samples.new_year_2024
  = Ok [("last_login__lte", DateTime (Samples.new_year_2024 tt))].
Proof.
  apply (C1_now_alone_is_the_clock _ Samples.people Dateparse.current
           Samples.new_year_2024 "filter" "last_login" "lte").
  - left. vm_compute. reflexivity.
  - unfold valid_datetime. vm_compute. repeat split; discriminate.
Defined.

(** With a parser that rejects both the empty text and [", 0"], as the
    [legacy] one does, the same rule raises instead. *)
Lemma now_alone_rejected :
  forall (Q : Type) (qs : Q) (lib : string -> result (option timedelta))
         (now : unit -> datetime) (m f l : string),
    lib "" = Ok None -> lib ", 0" = Ok None ->
    filter_kwargs lib (mk_rule m f l "now") qs now
    = Raise (ValueError "Could not parse ").
Proof.
  intros Q qs lib now m f l H1 H2.
  rewrite filter_kwargs_now by reflexivity.
  change (replace "now" "" (field_value (mk_rule m f l "now"))) with "".
  rewrite parse_duration_no_comma_raises; try assumption; reflexivity.
Qed.

Example now_alone_legacy :
  filter_kwargs Dateparse.legacy (mk_rule "filter" "last_login" "lte" "now")
    Samples.people Samples.new_year_2024
  = Raise (ValueError "Could not parse ").
Proof. apply now_alone_rejected; vm_compute; reflexivity. Qed.

(** C8. With the clock fixed at 2024-01-01T00:00:00 the raw value
    ["today+3 days"] compiles to the date 2024-01-04: the prefix
    ["today"] is removed, the ["+"] is stripped, the day count
    ["3 days"] is read as three days (as it stands, or through the
    retry with [", 0"] appended when the parser wants that form), and
    the duration is added to [now().date()]. *)
Theorem C8_today_plus_3_days :
  forall (Q : Type) (qs : Q) (lib : string -> result (option timedelta))
         (now : unit -> datetime) (m f l : string),
    now tt = datetime_ymd_hms 2024 1 1 0 0 0 0 ->
    reads lib "3 days" (days 3) ->
    replace "today" "" "today+3 days" = "+3 days"
    /\ parse_duration lib "+3 days" = Ok (Some (days 3))
    /\ date_add (date_of (now tt)) (Some (days 3)) = Ok (date_ymd 2024 1 4)
    /\ filter_kwargs lib (mk_rule m f l "today+3 days") qs now
       = Ok [(lookup_key (mk_rule m f l "today+3 days"),
              Date (date_ymd 2024 1 4))]
    /\ ymd_of (date_ymd 2024 1 4) = (2024, 1, 4)%Z.
Proof.
  intros Q qs lib now m f l Hnow Hlib.
  assert (Hparse : parse_duration lib "+3 days" = Ok (Some (days 3)))
    by (apply parse_duration_reads; exact Hlib).
  assert (Hadd : date_add (date_of (now tt)) (Some (days 3))
                 = Ok (date_ymd 2024 1 4))
    by (rewrite Hnow; vm_compute; reflexivity).
  split; [reflexivity|]. split; [exact Hparse|]. split; [exact Hadd|].
  split; [|vm_compute; reflexivity].
  rewrite filter_kwargs_today by reflexivity.
  change (replace "today" "" (field_value (mk_rule m f l "today+3 days")))
    with "+3 days".
  rewrite Hparse, bind_Ok, Hadd. reflexivity.
Qed.

Lemma C8_today_plus_3_days_witness :
  filter_kwargs Dateparse.legacy (mk_rule "filter" "renewal" "lte" "today+3 days")
    Samples.people Samples.new_year_2024
  = Ok [("renewal__lte", Date (date_ymd 2024 1 4))].
Proof.
  apply (C8_today_plus_3_days _ Samples.people Dateparse.legacy
           Samples.new_year_2024 "filter" "renewal" "lte").
  - reflexivity.
  - right. repeat split; vm_compute; reflexivity.
Defined.

Example today_plus_3_days_current :
  reads Dateparse.current "3 days" (days 3)
  /\ filter_kwargs Dateparse.current
       (mk_rule "filter" "renewal" "lte" "today+3 days")
       Samples.people Samples.new_year_2024
     = Ok [("renewal__lte", Date (date_ymd 2024 1 4))].
Proof. split; [left|]; vm_compute; reflexivity. Qed.

(** ** Rules run on the in-memory store *)

Section StoreFacts.

Local Open Scope Z_scope.

Lemma resolve_after_insert (qs : queryset) (alias rel : string)
    (a : aggregate) (k : kind) :
  resolve qs rel = Ok k ->
  exists k', resolve (mk_queryset (schema qs) (rows qs)
                        (<[alias := a]> (annotations qs))) rel = Ok k'.
Proof.
  unfold resolve. simpl. intros Hr.
  destruct (decide (alias = rel)) as [->|Hne].
  - rewrite lookup_insert_eq. now exists KInt.
  - rewrite lookup_insert_ne by exact Hne. now exists k.
Qed.

(** Asking the store twice for the same annotation is asking once. *)
Lemma annotate1_idempotent (qs qs1 : queryset) (kw : string * aggregate) :
  annotate1 qs kw = Ok qs1 -> annotate1 qs1 kw = Ok qs1.
Proof.
  destruct kw as [alias [rel distinct]]. unfold annotate1.
  destruct (schema qs !! alias) eqn:Hs; [discriminate|].
  destruct (resolve qs rel) as [k|e] eqn:Hr; [|discriminate].
  rewrite bind_Ok. intros Hq. injection Hq as <-. simpl. rewrite Hs.
  destruct (resolve_after_insert qs alias rel (Count rel distinct) k Hr)
    as [k' ->].
  rewrite bind_Ok. simpl. now rewrite insert_insert_eq.
Qed.

Lemma annotate_one (qs : queryset) (kw : string * aggregate) :
  annotate qs [kw] = annotate1 qs kw.
Proof. unfold annotate. now destruct (annotate1 qs kw). Qed.

Lemma annotate1_annotations (qs qs1 : queryset) (alias : string) (a : aggregate) :
  annotate1 qs (alias, a) = Ok qs1 ->
  annotations qs1 = <[alias := a]> (annotations qs)
  /\ schema qs1 = schema qs /\ rows qs1 = rows qs.
Proof.
  destruct a as [rel distinct]. unfold annotate1.
  destruct (schema qs !! alias); [discriminate|].
  destruct (resolve qs rel); [|discriminate].
  rewrite bind_Ok. intros Hq. injection Hq as <-. now simpl.
Qed.

End StoreFacts.

(** C3. For a rule on the field [R + "__count"], compiling asks the
    store for one annotation, the distinct count over [R], under the
    alias derived from the field name alone, and that alias is the
    effective field name of the predicate key; on the in-memory store
    the annotation is recorded under the alias, nothing else changes,
    and applying the same annotation to the annotated collection again
    succeeds and leaves it as it is. *)
Theorem C3_count_annotation_once_and_idempotent :
  forall (lib : string -> result (option timedelta)) (now : unit -> datetime)
         (R m l v : string) (qs qs1 : queryset),
    apply_any_annotation (mk_rule m (R +:+ "__count") l v) qs = Ok qs1 ->
    let self := mk_rule m (R +:+ "__count") l v in
    let alias := "num_" +:+ replace "__" "_" R in
    (forall (Q : Type) (HQ : Queryable Q) (q : Q),
        apply_any_annotation self q = qs_annotate q [(alias, Count R true)])
    /\ (forall kw, filter_kwargs lib self qs now = Ok kw ->
                   exists x, kw = [(alias +:+ "__" +:+ l, x)])
    /\ annotations qs1 = <[alias := Count R true]> (annotations qs)
    /\ schema qs1 = schema qs /\ rows qs1 = rows qs
    /\ apply_any_annotation self qs1 = Ok qs1.
Proof.
  intros lib now R m l v qs qs1 Hfirst self alias.
  assert (Hone : forall (Q : Type) (HQ : Queryable Q) (q : Q),
             apply_any_annotation self q = qs_annotate q [(alias, Count R true)]).
  { intros Q HQ q. now apply apply_any_annotation_count. }
  split; [exact Hone|]. split.
  - intros kw Hkw. destruct (filter_kwargs_key lib self qs now kw Hkw) as [x ->].
    exists x. now rewrite (lookup_key_count self R).
  - fold self in Hfirst. rewrite Hone in Hfirst |- *.
    change (annotate qs [(alias, Count R true)] = Ok qs1) in Hfirst.
    change (qs_annotate qs1 [(alias, Count R true)])
      with (annotate qs1 [(alias, Count R true)]).
    rewrite annotate_one in Hfirst |- *.
    destruct (annotate1_annotations _ _ _ _ Hfirst) as (H1 & H2 & H3).
    repeat (split; [assumption|]).
    exact (annotate1_idempotent _ _ _ Hfirst).
Qed.

Lemma C3_count_annotation_once_and_idempotent_witness :
  let self := mk_rule "filter" "orders__count" "gt" "0" in
  let annotated :=
    mk_queryset (schema Samples.people) (rows Samples.people)
      {[ "num_orders" := Count "orders" true ]} in
  apply_any_annotation self Samples.people = Ok annotated
  /\ apply_any_annotation self annotated = Ok annotated.
Proof.
  intros self annotated.
  assert (Hfirst : apply_any_annotation
                     (mk_rule "filter" ("orders" +:+ "__count") "gt" "0")
                     Samples.people = Ok annotated)
    by (vm_compute; reflexivity).
  split; [exact Hfirst|].
  exact (proj2 (proj2 (proj2 (proj2 (proj2
          (C3_count_annotation_once_and_idempotent
             Dateparse.current Samples.new_year_2024
             "orders" "filter" "gt" "0" Samples.people annotated Hfirst)))))).
Defined.

(** The rule of the example on the three sample people: the one
    annotation is recorded, the people with at least one order are kept,
    and applying the rule to the outcome changes nothing more. *)
Example orders_count_gt_0 :
  forall (lib : string -> result (option timedelta)) (now : unit -> datetime),
    let self := mk_rule "filter" "orders__count" "gt" "0" in
    let kept :=
      mk_queryset (schema Samples.people)
        [Samples.person 18 [7; 7; 9]; Samples.person 21 [4]]%Z
        {[ "num_orders" := Count "orders" true ]} in
    filter_kwargs lib self Samples.people now = Ok [("num_orders__gt", Str "0")]
    /\ apply lib self Samples.people now = Ok kept
    /\ apply lib self kept now = Ok kept.
Proof. intros lib now. repeat split; vm_compute; reflexivity. Qed.

(** C7. On the three people aged 15, 18 and 21, the rule [age gte "18"]
    with method ['filter'] returns exactly the people aged 18 and 21, in
    that order, and with method ['exclude'] exactly the one aged 15, for
    any duration parser and any clock; the predicate is the same in
    both. *)
Theorem C7_age_gte_18 :
  forall (lib : string -> result (option timedelta)) (now : unit -> datetime),
    filter_kwargs lib (mk_rule "filter" "age" "gte" "18") Samples.people now
    = Ok [("age__gte", Str "18")]
    /\ filter_kwargs lib (mk_rule "exclude" "age" "gte" "18") Samples.people now
       = Ok [("age__gte", Str "18")]
    /\ apply lib (mk_rule "filter" "age" "gte" "18") Samples.people now
       = Ok (mk_queryset (schema Samples.people)
               [Samples.person 18 [7; 7; 9]; Samples.person 21 [4]]%Z ∅)
    /\ apply lib (mk_rule "exclude" "age" "gte" "18") Samples.people now
       = Ok (mk_queryset (schema Samples.people) [Samples.person 15 []]%Z ∅)
    /\ map (fun row => row !! "age") (rows Samples.people)
       = [Some (Int 15); Some (Int 18); Some (Int 21)]%Z.
Proof. intros lib now. repeat split; vm_compute; reflexivity. Qed.

(** On the in-memory store [exclude] keeps exactly the rows that
    [filter] drops. *)
Lemma select_rows (keep : bool) (qs q : queryset) (kw : list (string * value)) :
  select keep qs kw = Ok q ->
  exists ps,
    compile qs kw = Ok ps
    /\ rows q
       = List.filter
           (fun row => Bool.eqb (forallb (satisfies qs row) ps) keep) (rows qs).
Proof.
  unfold select. destruct (compile qs kw) as [ps|e]; [|discriminate].
  rewrite bind_Ok. intros Hq. injection Hq as <-. now exists ps.
Qed.

Lemma exclude_is_complement (qs a b : queryset) (kw : list (string * value)) :
  qs_filter qs kw = Ok a ->
  qs_exclude qs kw = Ok b ->
  forall row, In row (rows qs) -> (In row (rows a) <-> ~ In row (rows b)).
Proof.
  intros Ha Hb row Hrow.
  destruct (select_rows true qs a kw Ha) as (ps & Hps & ->).
  destruct (select_rows false qs b kw Hb) as (ps' & Hps' & ->).
  rewrite Hps in Hps'. injection Hps' as <-.
  rewrite !List.filter_In.
  destruct (forallb (satisfies qs row) ps); simpl; split.
  - intros _ [_ Hf]. discriminate.
  - intros _. now split.
  - intros [_ Hf]. discriminate.
  - intros Hn. exfalso. apply Hn. now split.
Qed.

Example unrecognised_method_on_people :
  forall (lib : string -> result (option timedelta)) (now : unit -> datetime),
    apply lib (mk_rule "keep" "age" "gte" "18") Samples.people now
    = Ok (mk_queryset (schema Samples.people)
            [Samples.person 18 [7; 7; 9]; Samples.person 21 [4]]%Z ∅).
Proof. intros lib now. vm_compute. reflexivity. Qed.

(** A reference to another field of the same row, when ["F_"] is the
    prefix only: the store resolves the name against the row (and
    rejects a name it does not know); nobody is younger than they
    are. *)
Example F_reference_on_people :
  forall (lib : string -> result (option timedelta)) (now : unit -> datetime),
    filter_kwargs lib (mk_rule "filter" "age" "gte" "F_min_age")
      Samples.people now
    = Ok [("age__gte", F "min_age")]
    /\ raised (apply lib (mk_rule "filter" "age" "gte" "F_min_age")
                 Samples.people now) = true
    /\ apply lib (mk_rule "exclude" "age" "lt" "F_age") Samples.people now
       = Ok Samples.people.
Proof. intros lib now. repeat split; vm_compute; reflexivity. Qed.

(* ===================================================================== *)
(** * Further properties of the rule code *)
(* ===================================================================== *)

(** ** [parse_duration] *)

(** X1. [parse_duration] returns a duration [d] exactly when the library
    gives [d] for the text without its leading ["+"], as it stands or,
    that failing and the text holding no comma, with [", 0"] appended. *)
Theorem X1_parse_duration_returns_iff_reads :
  forall (lib : string -> result (option timedelta)) (value : string)
         (d : timedelta),
    parse_duration lib value = Ok (Some d) <-> reads lib (lstrip "+" value) d.
Proof.
  intros lib value d. split; [|apply parse_duration_reads].
  unfold parse_duration, reads.
  destruct (lib (lstrip "+" value)) as [[d1|]|e]; rewrite ?bind_Ok, ?bind_Raise.
  - intros Hd. injection Hd as ->. now left.
  - destruct (contains "," (lstrip "+" value)); simpl negb; cbv iota.
    + discriminate.
    + destruct (lib (lstrip "+" value +:+ ", 0")) as [[d2|]|e];
        rewrite ?bind_Ok, ?bind_Raise; try discriminate.
      intros Hd. injection Hd as ->. right. repeat split.
  - discriminate.
Qed.

(** X2. [parse_duration] hands [None] to its caller exactly when the
    library rejects the stripped text and that text holds a comma; in
    every other case it returns a duration or raises. *)
Theorem X2_parse_duration_None_iff :
  forall (lib : string -> result (option timedelta)) (value : string),
    parse_duration lib value = Ok None
    <-> lib (lstrip "+" value) = Ok None
        /\ contains "," (lstrip "+" value) = true.
Proof.
  intros lib value. split.
  - intros Hp.
    destruct (contains "," (lstrip "+" value)) eqn:Hc.
    + split; [|reflexivity]. unfold parse_duration in Hp.
      destruct (lib (lstrip "+" value)) as [[d1|]|e];
        rewrite ?bind_Ok, ?bind_Raise in Hp; try discriminate. reflexivity.
    + exfalso. exact (parse_duration_no_comma_not_None lib value Hc Hp).
  - intros [Hlib Hc]. unfold parse_duration.
    rewrite Hlib, bind_Ok, Hc. reflexivity.
Qed.

(** X3. An exception raised by the library, on the first attempt or on
    the retry, leaves [parse_duration] as it is, and the only exception
    [parse_duration] raises of its own is the [ValueError] with the
    message ["Could not parse "] followed by the stripped text. *)
Theorem X3_parse_duration_exceptions :
  forall (lib : string -> result (option timedelta)) (value : string) (e : exn),
    parse_duration lib value = Raise e ->
    lib (lstrip "+" value) = Raise e
    \/ (lib (lstrip "+" value) = Ok None
        /\ contains "," (lstrip "+" value) = false
        /\ (lib (lstrip "+" value +:+ ", 0") = Raise e
            \/ (lib (lstrip "+" value +:+ ", 0") = Ok None
                /\ e = ValueError ("Could not parse " +:+ lstrip "+" value)))).
Proof.
  intros lib value e. unfold parse_duration.
  destruct (lib (lstrip "+" value)) as [[d1|]|e1]; rewrite ?bind_Ok, ?bind_Raise.
  - discriminate.
  - destruct (contains "," (lstrip "+" value)); simpl negb; cbv iota.
    + discriminate.
    + destruct (lib (lstrip "+" value +:+ ", 0")) as [[d2|]|e2];
        rewrite ?bind_Ok, ?bind_Raise; try discriminate.
      * intros He. injection He as <-. right. repeat split. right. now split.
      * intros He. injection He as <-. right. repeat split. now left.
  - intros He. injection He as <-. now left.
Qed.

Lemma X3_parse_duration_exceptions_witness :
  Dateparse.legacy "9999999999 days" = Ok None
  /\ Dateparse.legacy "9999999999 days, 0"
     = Raise (OverflowError "days=9999999999; must have magnitude <= 999999999").
Proof.
  assert (Hp : parse_duration Dateparse.legacy "+9999999999 days"
               = Raise (OverflowError
                   "days=9999999999; must have magnitude <= 999999999"))
    by (vm_compute; reflexivity).
  destruct (X3_parse_duration_exceptions Dateparse.legacy
              "+9999999999 days" _ Hp) as [H1|(H1 & _ & [H2|[H2 _]])].
  - vm_compute in H1. discriminate.
  - split; [exact H1 | exact H2].
  - vm_compute in H2. discriminate.
Defined.

(** ** [filter_kwargs] *)

(** X4. Whenever [filter_kwargs] returns, it returns exactly one entry,
    and its key is the effective field name, ["__"], the lookup,
    whatever the value was turned into. *)
Theorem X4_filter_kwargs_one_entry :
  forall (Q : Type) (qs : Q) (lib : string -> result (option timedelta))
         (now : unit -> datetime) (self : QuerySetRule)
         (kwargs : list (string * value)),
    filter_kwargs lib self qs now = Ok kwargs ->
    List.length kwargs = 1%nat
    /\ map fst kwargs
       = [annotated_field_name self +:+ "__" +:+ lookup_type self].
Proof.
  intros Q qs lib now self kwargs Hk.
  destruct (filter_kwargs_key lib self qs now kwargs Hk) as [v ->].
  split; reflexivity.
Qed.

Lemma X4_filter_kwargs_one_entry_witness :
  map fst [("num_orders__gt", Str "0")] = ["num_orders__gt"].
Proof.
  assert (Hk : filter_kwargs Dateparse.current
                 (mk_rule "filter" "orders__count" "gt" "0")
                 Samples.people Samples.new_year_2024
               = Ok [("num_orders__gt", Str "0")])
    by (vm_compute; reflexivity).
  exact (proj2 (X4_filter_kwargs_one_entry _ _ _ _ _ _ Hk)).
Defined.

(** X5. A raw value that starts with none of ["now"], ["today"], ["F_"]
    and is neither ["True"] nor ["False"] is bound to the key verbatim,
    as a string: the duration parser and the clock play no part and
    nothing is raised. *)
Theorem X5_other_values_pass_through :
  forall (Q : Type) (qs : Q) (lib : string -> result (option timedelta))
         (now : unit -> datetime) (self : QuerySetRule),
    startswith "now" (field_value self) = false ->
    startswith "today" (field_value self) = false ->
    startswith "F_" (field_value self) = false ->
    field_value self <> "True" ->
    field_value self <> "False" ->
    filter_kwargs lib self qs now
    = Ok [(lookup_key self, Str (field_value self))].
Proof.
  intros Q qs lib now self Hn Ht HF HT HFa.
  apply String.eqb_neq in HT. apply String.eqb_neq in HFa.
  unfold filter_kwargs. rewrite Hn, Ht, HF, HT, HFa. reflexivity.
Qed.

Lemma X5_other_values_pass_through_witness :
  filter_kwargs Dateparse.current (mk_rule "filter" "name" "iexact" "")
    Samples.people Samples.new_year_2024
  = Ok [("name__iexact", Str "")]
  /\ filter_kwargs Dateparse.current (mk_rule "filter" "active" "exact" "true")
       Samples.people Samples.new_year_2024
     = Ok [("active__exact", Str "true")].
Proof.
  split.
  - apply (X5_other_values_pass_through _ Samples.people Dateparse.current
             Samples.new_year_2024 (mk_rule "filter" "name" "iexact" ""));
      (reflexivity || discriminate).
  - apply (X5_other_values_pass_through _ Samples.people Dateparse.current
             Samples.new_year_2024 (mk_rule "filter" "active" "exact" "true"));
      (reflexivity || discriminate).
Defined.

(** X6. The raw values ["True"] and ["False"], spelled exactly so, are
    bound as the booleans, for every field, lookup, parser and clock. *)
Theorem X6_boolean_literals :
  forall (Q : Type) (qs : Q) (lib : string -> result (option timedelta))
         (now : unit -> datetime) (self : QuerySetRule) (b : bool),
    field_value self = (if b then "True" else "False") ->
    filter_kwargs lib self qs now = Ok [(lookup_key self, Bool b)].
Proof.
  intros Q qs lib now self b Hv. unfold filter_kwargs. rewrite Hv.
  destruct b; reflexivity.
Qed.

Lemma X6_boolean_literals_witness :
  filter_kwargs Dateparse.current (mk_rule "exclude" "is_staff" "exact" "False")
    Samples.people Samples.new_year_2024
  = Ok [("is_staff__exact", Bool false)].
Proof.
  apply (X6_boolean_literals _ Samples.people Dateparse.current
           Samples.new_year_2024
           (mk_rule "exclude" "is_staff" "exact" "False") false).
  reflexivity.
Defined.

(** X7. A raw value ["F_" + rest] in which ["F_"] does not occur again
    is bound as the reference [F(rest)], for every parser and clock,
    and nothing is raised. *)
Theorem X7_F_reference_to_remainder :
  forall (Q : Type) (qs : Q) (lib : string -> result (option timedelta))
         (now : unit -> datetime) (m f l rest : string),
    contains "F_" rest = false ->
    filter_kwargs lib (mk_rule m f l ("F_" +:+ rest)) qs now
    = Ok [(lookup_key (mk_rule m f l ("F_" +:+ rest)), F rest)].
Proof.
  intros Q qs lib now m f l rest Hr.
  rewrite filter_kwargs_F by reflexivity.
  change (field_value (mk_rule m f l ("F_" +:+ rest))) with ("F_" +:+ rest).
  now rewrite replace_F_prefix.
Qed.

Lemma X7_F_reference_to_remainder_witness :
  filter_kwargs Dateparse.current
    (mk_rule "filter" "last_login" "gte" "F_date_joined")
    Samples.people Samples.new_year_2024
  = Ok [("last_login__gte", F "date_joined")].
Proof.
  apply (X7_F_reference_to_remainder _ Samples.people Dateparse.current
           Samples.new_year_2024 "filter" "last_login" "gte" "date_joined").
  reflexivity.
Defined.

(** ** Relative instants and dates *)

Section RelativeFacts.

Local Open Scope Z_scope.

Lemma div_days (n : Z) : n * US_PER_DAY / US_PER_DAY = n.
Proof. apply Z.div_mul. discriminate. Qed.

(** Adding whole days moves the day and keeps the time of day. *)
Lemma datetime_add_days (t : datetime) (n : Z) :
  valid_datetime t ->
  1 <= dt_ordinal t + n <= MAXORDINAL ->
  datetime_add t (Some (days n))
  = Ok (mk_datetime (dt_ordinal t + n) (dt_micro t)).
Proof.
  destruct t as [o us]. unfold valid_datetime, datetime_add, days. simpl.
  intros [_ Hus] [Hlo Hhi].
  replace (o * US_PER_DAY + us + n * US_PER_DAY)
    with ((o + n) * US_PER_DAY + us) by ring.
  assert (Hq : ((o + n) * US_PER_DAY + us) / US_PER_DAY = o + n).
  { symmetry. apply Z.div_unique with (r := us); [left; exact Hus | ring]. }
  assert (Hr : ((o + n) * US_PER_DAY + us) mod US_PER_DAY = us).
  { symmetry. apply Z.mod_unique with (q := o + n); [left; exact Hus | ring]. }
  rewrite Hq, Hr.
  assert (H1 : (1 <=? o + n) = true) by (apply Z.leb_le; lia).
  assert (H2 : (o + n <=? MAXORDINAL) = true) by (apply Z.leb_le; lia).
  now rewrite H1, H2.
Qed.

Lemma date_add_days (d : date) (n : Z) :
  1 <= d_ordinal d + n <= MAXORDINAL ->
  date_add d (Some (days n)) = Ok (mk_date (d_ordinal d + n)).
Proof.
  unfold date_add, td_days, days. simpl. rewrite div_days. intros [Hlo Hhi].
  assert (H1 : (1 <=? d_ordinal d + n) = true) by (apply Z.leb_le; lia).
  assert (H2 : (d_ordinal d + n <=? MAXORDINAL) = true) by (apply Z.leb_le; lia).
  now rewrite H1, H2.
Qed.

Lemma replace_prefix_only (prefix rest : string) :
  prefix <> "" ->
  contains prefix rest = false ->
  replace prefix "" (prefix +:+ rest) = rest.
Proof.
  intros Hp Hr. rewrite replace_hit; [|exact Hp|apply startswith_app].
  rewrite drop_app, app_nil_l. now apply replace_absent.
Qed.

End RelativeFacts.

(** X8. For a raw value ["now" + rest] in which ["now"] does not occur
    again, the rule binds its key to [now()] plus the parsed [rest], an
    instant; for ["today" + rest], likewise, to [now().date()] plus the
    parsed [rest], a date.  What [parse_duration] or the addition raises
    is what [filter_kwargs] raises. *)
Theorem X8_relative_values :
  forall (Q : Type) (qs : Q) (lib : string -> result (option timedelta))
         (now : unit -> datetime) (m f l rest : string),
    (contains "now" rest = false ->
     filter_kwargs lib (mk_rule m f l ("now" +:+ rest)) qs now
     = (let* d := parse_duration lib rest in
        let* v := datetime_add (now tt) d in
        Ok [(lookup_key (mk_rule m f l ("now" +:+ rest)), DateTime v)]))
    /\ (contains "today" rest = false ->
        filter_kwargs lib (mk_rule m f l ("today" +:+ rest)) qs now
        = (let* d := parse_duration lib rest in
           let* v := date_add (date_of (now tt)) d in
           Ok [(lookup_key (mk_rule m f l ("today" +:+ rest)), Date v)])).
Proof.
  intros Q qs lib now m f l rest. split; intros Hr.
  - rewrite filter_kwargs_now by reflexivity.
    change (field_value (mk_rule m f l ("now" +:+ rest))) with ("now" +:+ rest).
    rewrite replace_prefix_only; [reflexivity|discriminate|exact Hr].
  - rewrite filter_kwargs_today by reflexivity.
    change (field_value (mk_rule m f l ("today" +:+ rest)))
      with ("today" +:+ rest).
    rewrite replace_prefix_only; [reflexivity|discriminate|exact Hr].
Qed.

Lemma X8_relative_values_witness :
  filter_kwargs Dateparse.current (mk_rule "filter" "date_joined" "lte" "now-7 days")
    Samples.people Samples.new_year_2024
  = Ok [("date_joined__lte", DateTime (datetime_ymd_hms 2023 12 25 0 0 0 0))]
  /\ filter_kwargs Dateparse.current
       (mk_rule "filter" "date_joined" "lte" "today-7 days")
       Samples.people Samples.new_year_2024
     = Ok [("date_joined__lte", Date (date_ymd 2023 12 25))].
Proof.
  destruct (X8_relative_values _ Samples.people Dateparse.current
              Samples.new_year_2024 "filter" "date_joined" "lte" "-7 days")
    as [Hnow Htoday].
  split.
  - change ("now-7 days") with ("now" +:+ "-7 days").
    rewrite Hnow by reflexivity. vm_compute. reflexivity.
  - change ("today-7 days") with ("today" +:+ "-7 days").
    rewrite Htoday by reflexivity. vm_compute. reflexivity.
Defined.

(** X9. When the parser reads [rest] as a whole number [n] of days and
    the shifted day is in the calendar, ["now" + rest] is the instant
    [n] days from [now()] at the same time of day, and ["today" + rest]
    is the date of that instant. *)
Theorem X9_whole_days :
  forall (Q : Type) (qs : Q) (lib : string -> result (option timedelta))
         (now : unit -> datetime) (m f l rest : string) (n : Z),
    contains "now" rest = false ->
    contains "today" rest = false ->
    reads lib (lstrip "+" rest) (days n) ->
    valid_datetime (now tt) ->
    (1 <= dt_ordinal (now tt) + n <= MAXORDINAL)%Z ->
    let shifted := mk_datetime (dt_ordinal (now tt) + n) (dt_micro (now tt)) in
    filter_kwargs lib (mk_rule m f l ("now" +:+ rest)) qs now
    = Ok [(lookup_key (mk_rule m f l ("now" +:+ rest)), DateTime shifted)]
    /\ filter_kwargs lib (mk_rule m f l ("today" +:+ rest)) qs now
       = Ok [(lookup_key (mk_rule m f l ("today" +:+ rest)),
              Date (date_of shifted))].
Proof.
  intros Q qs lib now m f l rest n Hn Ht Hlib Hvalid Hrange shifted.
  assert (Hparse : parse_duration lib rest = Ok (Some (days n)))
    by (apply parse_duration_reads; exact Hlib).
  split.
  - rewrite filter_kwargs_now by reflexivity.
    change (field_value (mk_rule m f l ("now" +:+ rest))) with ("now" +:+ rest).
    rewrite replace_prefix_only; [|discriminate|exact Hn].
    rewrite Hparse, bind_Ok, (datetime_add_days _ _ Hvalid Hrange). reflexivity.
  - rewrite filter_kwargs_today by reflexivity.
    change (field_value (mk_rule m f l ("today" +:+ rest)))
      with ("today" +:+ rest).
    rewrite replace_prefix_only; [|discriminate|exact Ht].
    rewrite Hparse, bind_Ok, date_add_days by exact Hrange. reflexivity.
Qed.

Lemma X9_whole_days_witness :
  filter_kwargs Dateparse.legacy (mk_rule "filter" "date_joined" "lte" "now-7 days")
    Samples.people (fun _ => datetime_ymd_hms 2024 1 1 9 30 0 0)
  = Ok [("date_joined__lte", DateTime (datetime_ymd_hms 2023 12 25 9 30 0 0))]
  /\ filter_kwargs Dateparse.legacy
       (mk_rule "filter" "date_joined" "lte" "today-7 days")
       Samples.people (fun _ => datetime_ymd_hms 2024 1 1 9 30 0 0)
     = Ok [("date_joined__lte", Date (date_ymd 2023 12 25))].
Proof.
  apply (X9_whole_days _ Samples.people Dateparse.legacy
           (fun _ => datetime_ymd_hms 2024 1 1 9 30 0 0)
           "filter" "date_joined" "lte" "-7 days" (-7)%Z).
  - reflexivity.
  - reflexivity.
  - right. repeat split; vm_compute; reflexivity.
  - unfold valid_datetime. vm_compute. repeat split; discriminate.
  - vm_compute. split; discriminate.
Defined.

(** X10. A value that starts with ["today"] depends on the clock through
    its date alone: two clocks that show the same day give the same
    outcome, whatever their times of day. *)
Theorem X10_today_ignores_time_of_day :
  forall (Q : Type) (qs : Q) (lib : string -> result (option timedelta))
         (now1 now2 : unit -> datetime) (self : QuerySetRule),
    startswith "today" (field_value self) = true ->
    date_of (now1 tt) = date_of (now2 tt) ->
    filter_kwargs lib self qs now1 = filter_kwargs lib self qs now2.
Proof.
  intros Q qs lib now1 now2 self Ht Hd.
  rewrite !filter_kwargs_today by exact Ht. now rewrite Hd.
Qed.

Lemma X10_today_ignores_time_of_day_witness :
  filter_kwargs Dateparse.current (mk_rule "filter" "renewal" "lte" "today+3 days")
    Samples.people Samples.new_year_2024
  = filter_kwargs Dateparse.current
      (mk_rule "filter" "renewal" "lte" "today+3 days")
      Samples.people (fun _ => datetime_ymd_hms 2024 1 1 23 59 59 999999).
Proof.
  apply (X10_today_ignores_time_of_day _ Samples.people Dateparse.current
           Samples.new_year_2024
           (fun _ => datetime_ymd_hms 2024 1 1 23 59 59 999999)
           (mk_rule "filter" "renewal" "lte" "today+3 days"));
    reflexivity.
Defined.

(** ** [apply] and [clean] *)

(** X11. [apply] compiles the predicate before it touches the
    collection: when [filter_kwargs] raises, [apply] raises the same
    exception whatever the store's methods are, and when the annotation
    is refused, [apply] raises that refusal and no filter is run. *)
Theorem X11_apply_fails_before_the_store :
  forall (Q : Type) (qs : Q) (lib : string -> result (option timedelta))
         (now : unit -> datetime) (self : QuerySetRule) (e : exn),
    (filter_kwargs lib self qs now = Raise e ->
     forall HQ : Queryable Q, @apply Q HQ lib self qs now = Raise e)
    /\ (forall (HQ : Queryable Q) (kwargs : list (string * value)),
          filter_kwargs lib self qs now = Ok kwargs ->
          @apply_any_annotation Q HQ self qs = Raise e ->
          @apply Q HQ lib self qs now = Raise e).
Proof.
  intros Q qs lib now self e. split.
  - intros Hk HQ. unfold apply. now rewrite Hk.
  - intros HQ kwargs Hk Ha. unfold apply. now rewrite Hk, bind_Ok, Ha.
Qed.

Lemma X11_apply_fails_before_the_store_witness :
  apply Dateparse.current (mk_rule "filter" "age" "gte" "today+soon")
    Samples.people Samples.new_year_2024
  = Raise (ValueError "Could not parse soon")
  /\ apply Dateparse.current (mk_rule "filter" "pets__count" "gte" "1")
       Samples.people Samples.new_year_2024
     = Raise (LibraryError "FieldError"
                "Cannot resolve keyword 'pets' into field.").
Proof.
  split.
  - apply (proj1 (X11_apply_fails_before_the_store _ Samples.people
                    Dateparse.current Samples.new_year_2024
                    (mk_rule "filter" "age" "gte" "today+soon")
                    (ValueError "Could not parse soon"))).
    vm_compute. reflexivity.
  - apply (proj2 (X11_apply_fails_before_the_store _ Samples.people
                    Dateparse.current Samples.new_year_2024
                    (mk_rule "filter" "pets__count" "gte" "1")
                    (LibraryError "FieldError"
                       "Cannot resolve keyword 'pets' into field."))
             _ [("num_pets__gte", Str "1")]);
      vm_compute; reflexivity.
Defined.

(** X12. On the in-memory store, a rule that succeeds as ['filter']
    succeeds as ['exclude'] too, with the same annotations, and the two
    outcomes split the rows of the collection: a row is kept by the one
    exactly when it is dropped by the other. *)
Theorem X12_exclude_complements_filter :
  forall (lib : string -> result (option timedelta)) (now : unit -> datetime)
         (self : QuerySetRule) (qs a : queryset),
    apply lib (with_method "filter" self) qs now = Ok a ->
    exists b,
      apply lib (with_method "exclude" self) qs now = Ok b
      /\ annotations b = annotations a
      /\ forall row, In row (rows qs) -> (In row (rows a) <-> ~ In row (rows b)).
Proof.
  intros lib now self qs a Ha. unfold apply in *.
  change (filter_kwargs lib (with_method "exclude" self) qs now)
    with (filter_kwargs lib (with_method "filter" self) qs now).
  change (apply_any_annotation (with_method "exclude" self) qs)
    with (apply_any_annotation (with_method "filter" self) qs).
  destruct (filter_kwargs lib (with_method "filter" self) qs now)
    as [kwargs|e]; [|discriminate].
  rewrite bind_Ok in Ha |- *.
  destruct (apply_any_annotation (with_method "filter" self) qs)
    as [q1|e] eqn:Hq1; [|discriminate].
  rewrite bind_Ok in Ha |- *. simpl in Ha |- *.
  assert (Hrows : rows q1 = rows qs).
  { unfold apply_any_annotation in Hq1.
    destruct (endswith "__count" (field_name (with_method "filter" self))).
    - destruct (rpartition "__" (field_name (with_method "filter" self)))
        as [[agg ?] ?].
      change (annotate qs [(annotated_field_name (with_method "filter" self),
                            Count agg true)] = Ok q1) in Hq1.
      rewrite annotate_one in Hq1.
      now destruct (annotate1_annotations _ _ _ _ Hq1) as (_ & _ & ?).
    - now injection Hq1 as <-. }
  destruct (select_rows true q1 a kwargs Ha) as (ps & Hps & Hra).
  exists (mk_queryset (schema q1)
            (List.filter
               (fun row => Bool.eqb (forallb (satisfies q1 row) ps) false)
               (rows q1))
            (annotations q1)).
  assert (Hb : select false q1 kwargs
               = Ok (mk_queryset (schema q1)
                       (List.filter
                          (fun row =>
                             Bool.eqb (forallb (satisfies q1 row) ps) false)
                          (rows q1))
                       (annotations q1)))
    by (unfold select; now rewrite Hps).
  split; [exact Hb|]. split.
  - unfold select in Ha. rewrite Hps, bind_Ok in Ha. now injection Ha as <-.
  - intros row Hrow. rewrite <- Hrows in Hrow.
    exact (exclude_is_complement q1 a _ kwargs Ha Hb row Hrow).
Qed.

Lemma X12_exclude_complements_filter_witness :
  exists b,
    apply Dateparse.current (mk_rule "exclude" "orders__count" "gt" "1")
      Samples.people Samples.new_year_2024 = Ok b
    /\ annotations b = {[ "num_orders" := Count "orders" true ]}.
Proof.
  destruct (X12_exclude_complements_filter Dateparse.current
              Samples.new_year_2024
              (mk_rule "filter" "orders__count" "gt" "1") Samples.people
              (mk_queryset (schema Samples.people)
                 [Samples.person 18 [7; 7; 9]%Z]
                 {[ "num_orders" := Count "orders" true ]}))
    as (b & Hb & Hann & _).
  - vm_compute. reflexivity.
  - exists b. split; [exact Hb | exact Hann].
Defined.

(** X13. With a user model at hand, [clean] returns (with [None]) exactly
    when applying the rule to all users returns; the narrowed collection
    itself is dropped. *)
Theorem X13_clean_returns_iff_apply_returns :
  forall (Q : Type) (HQ : Queryable Q)
         (lib : string -> result (option timedelta))
         (timezone_now : unit -> datetime)
         (Model : Type) (get_user_model : unit -> result Model)
         (objects_all : Model -> Q)
         (self : QuerySetRule) (User : Model),
    get_user_model tt = Ok User ->
    (clean lib timezone_now Model get_user_model objects_all self = Ok tt
     <-> exists q, apply lib self (objects_all User) timezone_now = Ok q).
Proof.
  intros Q HQ lib tznow Model get objs self User Hget.
  unfold clean. rewrite Hget, bind_Ok.
  destruct (apply lib self (objs User) tznow) as [q|e]; rewrite ?bind_Ok, ?bind_Raise.
  - split; [intros _; now exists q | reflexivity].
  - unfold try_except. split.
    + destruct (is_Exception e); discriminate.
    + intros [q Hq]. discriminate.
Qed.

Lemma X13_clean_returns_iff_apply_returns_witness :
  clean Dateparse.current Samples.new_year_2024 unit
    Samples.get_people Samples.all_people
    (mk_rule "filter" "age" "gte" "18") = Ok tt.
Proof.
  apply (X13_clean_returns_iff_apply_returns _ _ Dateparse.current
           Samples.new_year_2024 unit Samples.get_people Samples.all_people
           (mk_rule "filter" "age" "gte" "18") tt eq_refl).
  eexists. vm_compute. reflexivity.
Defined.

(** X14. Two failures leave [clean] unwrapped: a failure of
    [get_user_model()], which runs before the [try], whatever its class,
    and an exception of [apply] that is not an instance of
    [Exception]. *)
Theorem X14_clean_lets_through :
  forall (Q : Type) (HQ : Queryable Q)
         (lib : string -> result (option timedelta))
         (timezone_now : unit -> datetime)
         (Model : Type) (get_user_model : unit -> result Model)
         (objects_all : Model -> Q)
         (self : QuerySetRule) (e : exn),
    (get_user_model tt = Raise e ->
     clean lib timezone_now Model get_user_model objects_all self = Raise e)
    /\ (forall User : Model,
          get_user_model tt = Ok User ->
          apply lib self (objects_all User) timezone_now = Raise e ->
          is_Exception e = false ->
          clean lib timezone_now Model get_user_model objects_all self
          = Raise e).
Proof.
  intros Q HQ lib tznow Model get objs self e. split.
  - intros Hget. unfold clean. now rewrite Hget.
  - intros User Hget Happly He. unfold clean.
    rewrite Hget, bind_Ok, Happly, bind_Raise. unfold try_except.
    now rewrite He.
Qed.

Lemma X14_clean_lets_through_witness :
  let misconfigured :=
    LibraryError "ImproperlyConfigured"
      "AUTH_USER_MODEL refers to model that has not been installed" in
  let interrupted := NonException "KeyboardInterrupt" "" in
  let stopped : Queryable unit :=
    Build_Queryable unit (fun _ _ => Raise interrupted)
      (fun _ _ => Raise interrupted) (fun _ _ => Raise interrupted) in
  clean Dateparse.current Samples.new_year_2024 unit
    (fun _ => Raise misconfigured)
    Samples.all_people (mk_rule "filter" "age" "gte" "18")
  = Raise misconfigured
  /\ @clean unit stopped Dateparse.current Samples.new_year_2024 unit
       (fun _ => Ok tt) (fun _ => tt) (mk_rule "filter" "age" "gte" "18")
     = Raise interrupted.
Proof.
  intros misconfigured interrupted stopped. split.
  - apply (proj1 (X14_clean_lets_through _ _ Dateparse.current
                    Samples.new_year_2024 unit
                    (fun _ => Raise misconfigured)
                    Samples.all_people (mk_rule "filter" "age" "gte" "18") _)).
    reflexivity.
  - apply (proj2 (X14_clean_lets_through unit stopped Dateparse.current
                    Samples.new_year_2024 unit
                    (fun _ => Ok tt) (fun _ => tt)
                    (mk_rule "filter" "age" "gte" "18") interrupted) tt);
      reflexivity.
Defined.

(** ** The lookup key and the alias *)

Section KeyFacts.

Lemma contains_cons (sub : string) (c : ascii) (s : string) :
  contains sub (String c s) = startswith sub (String c s) || contains sub s.
Proof. reflexivity. Qed.

Lemma startswith_char (a c : ascii) (s : string) :
  startswith (String a "") (String c s) = Ascii.eqb a c.
Proof. unfold startswith. apply andb_true_r. Qed.

(** What "no underscore" says of a text that is not empty. *)
Lemma plain_cons (c : ascii) (text : string) :
  contains "_" (String c text) = false ->
  Ascii.eqb "_" c = false /\ contains "_" text = false.
Proof.
  rewrite contains_cons, startswith_char. intros Hc.
  now apply orb_false_iff in Hc.
Qed.

Lemma startswith_two (a b c : ascii) (s : string) :
  startswith (String a (String b "")) (String c s)
  = Ascii.eqb a c && startswith (String b "") s.
Proof. reflexivity. Qed.

Lemma rsplit_last_cons (sep : string) (c : ascii) (s : string) :
  rsplit_last sep (String c s)
  = match rsplit_last sep s with
    | Some (h, t) => Some (String c h, t)
    | None =>
        if startswith sep (String c s)
        then Some ("", drop (String.length sep) (String c s)) else None
    end.
Proof. reflexivity. Qed.

(** A text without an underscore holds no ["__"] to split at. *)
Lemma rsplit_last_plain (text : string) :
  contains "_" text = false -> rsplit_last "__" text = None.
Proof.
  induction text as [|c text IH]; [reflexivity|].
  intros Hc. apply plain_cons in Hc as [Hhead Htail].
  rewrite rsplit_last_cons, (IH Htail), startswith_two, Hhead. reflexivity.
Qed.

Lemma startswith_underscore_plain (text : string) :
  contains "_" text = false -> startswith "_" text = false.
Proof.
  destruct text as [|c text]; [reflexivity|].
  intros Hc. apply plain_cons in Hc as [Hhead _].
  now rewrite startswith_char.
Qed.

(** The last ["__"] of [name + "__" + tail] is the one written between
    them, whatever [name] holds, when [tail] has no underscore. *)
Lemma rsplit_last_join (name tail : string) :
  contains "_" tail = false ->
  rsplit_last "__" (name +:+ "__" +:+ tail) = Some (name, tail).
Proof.
  intros Ht. induction name as [|a name IH].
  - rewrite app_nil_l.
    change ("__" +:+ tail) with (String "_" (String "_" tail)).
    rewrite rsplit_last_cons, rsplit_last_cons, (rsplit_last_plain tail Ht).
    rewrite (startswith_two "_" "_" "_" tail).
    rewrite (startswith_underscore_plain tail Ht), andb_false_r.
    rewrite (startswith_two "_" "_" "_" (String "_" tail)), startswith_char.
    reflexivity.
  - rewrite app_cons, rsplit_last_cons. now rewrite IH.
Qed.

(** Characters that are not underscores are copied by
    [replace "__" "_"]. *)
Lemma replace_plain_prefix (plain rest : string) :
  contains "_" plain = false ->
  replace "__" "_" (plain +:+ rest) = plain +:+ replace "__" "_" rest.
Proof.
  induction plain as [|c plain IH]; [reflexivity|].
  intros Hc. apply plain_cons in Hc as [Hhead Htail].
  rewrite !app_cons. rewrite replace_miss.
  - now rewrite (IH Htail).
  - now rewrite startswith_two, Hhead.
Qed.

Lemma replace_plain (plain : string) :
  contains "_" plain = false -> replace "__" "_" plain = plain.
Proof.
  intros Hc. rewrite <- (app_empty_r plain) at 1.
  rewrite (replace_plain_prefix plain "" Hc). apply app_empty_r.
Qed.

End KeyFacts.

(** X15. For each of the fourteen lookups of [LOOKUP_TYPES] the key a
    rule compiles to splits back, at its last ["__"], into the effective
    field name and the lookup, whatever the field name holds. *)
Theorem X15_key_splits_back :
  forall self : QuerySetRule,
    In (lookup_type self) (map fst Campaign.LOOKUP_TYPES) ->
    rpartition "__" (lookup_key self)
    = (annotated_field_name self, "__", lookup_type self).
Proof.
  intros self Hin. unfold lookup_key, rpartition.
  rewrite rsplit_last_join; [reflexivity|].
  simpl in Hin.
  repeat (destruct Hin as [<-|Hin]; [reflexivity|]). contradiction.
Qed.

Lemma X15_key_splits_back_witness :
  rpartition "__" "num_orders_items__istartswith"
  = ("num_orders_items", "__", "istartswith").
Proof.
  apply (X15_key_splits_back
           (mk_rule "filter" "orders__items__count" "istartswith" "3")).
  simpl. tauto.
Defined.

(** X16. The alias does not tell a relation path [A__B] from a relation
    [A_B]: for underscore-free [A] and [B] the count fields
    [A__B__count] and [A_B__count], which differ, get the same alias
    [num_A_B], and with it the same predicate key. *)
Theorem X16_alias_collision :
  forall (A B m l v : string),
    contains "_" A = false ->
    contains "_" B = false ->
    let nested := mk_rule m ((A +:+ "__" +:+ B) +:+ "__count") l v in
    let flat := mk_rule m ((A +:+ "_" +:+ B) +:+ "__count") l v in
    field_name nested <> field_name flat
    /\ annotated_field_name nested = "num_" +:+ A +:+ "_" +:+ B
    /\ annotated_field_name flat = "num_" +:+ A +:+ "_" +:+ B
    /\ lookup_key nested = lookup_key flat.
Proof.
  intros A B m l v HA HB nested flat.
  assert (Hn : annotated_field_name nested = "num_" +:+ A +:+ "_" +:+ B).
  { rewrite (annotated_field_name_count nested (A +:+ "__" +:+ B) eq_refl).
    rewrite (replace_plain_prefix A _ HA).
    rewrite replace_hit; [|discriminate|reflexivity].
    rewrite (drop_app "__" B). now rewrite (replace_plain B HB). }
  assert (Hf : annotated_field_name flat = "num_" +:+ A +:+ "_" +:+ B).
  { rewrite (annotated_field_name_count flat (A +:+ "_" +:+ B) eq_refl).
    rewrite (replace_plain_prefix A _ HA).
    change ("_" +:+ B) with (String "_" B).
    rewrite replace_miss.
    - now rewrite (replace_plain B HB).
    - rewrite startswith_two, (startswith_underscore_plain B HB).
      apply andb_false_r. }
  split; [|split; [exact Hn|split; [exact Hf|]]].
  - simpl. intros Heq. apply (f_equal String.length) in Heq.
    rewrite !length_app_str in Heq. simpl in Heq. lia.
  - unfold lookup_key. now rewrite Hn, Hf.
Qed.

Lemma X16_alias_collision_witness :
  annotated_field_name (mk_rule "filter" "orders__items__count" "gt" "0")
  = annotated_field_name (mk_rule "filter" "orders_items__count" "gt" "0").
Proof.
  destruct (X16_alias_collision "orders" "items" "filter" "gt" "0"
              eq_refl eq_refl) as (_ & Hn & Hf & _).
  exact (eq_trans Hn (eq_sym Hf)).
Defined.

(** ** [Drip.drip] *)

(** X17. [Drip.drip] passes the name on as it is and every nullable
    setting with blanks turned into [None]: [DripBase] never receives an
    empty string, receives [None] exactly for a field that is [None] or
    empty, and receives any other field unchanged. *)
Theorem X17_drip_blanks_become_None :
  forall self : Campaign.Drip,
    Campaign.kw_name (Campaign.drip self) = Campaign.name self
    /\ blank_as_None (Campaign.from_email self)
         (Campaign.kw_from_email (Campaign.drip self))
    /\ blank_as_None (Campaign.from_email_name self)
         (Campaign.kw_from_email_name (Campaign.drip self))
    /\ blank_as_None (Campaign.reply_to self)
         (Campaign.kw_reply_to (Campaign.drip self))
    /\ blank_as_None (Campaign.subject_template self)
         (Campaign.kw_subject_template (Campaign.drip self))
    /\ blank_as_None (Campaign.body_html_template self)
         (Campaign.kw_body_template (Campaign.drip self)).
Proof.
  assert (Hset : forall x, blank_as_None x (Campaign.if_set x)).
  { intros [s|]; unfold blank_as_None, Campaign.if_set.
    - destruct (String.eqb_spec s "") as [->|Hs].
      + repeat split; try discriminate; auto. intros s' Hs' Heq.
        injection Heq as <-. congruence.
      + repeat split.
        * intros Heq. injection Heq as ->. congruence.
        * discriminate.
        * intros [Heq|Heq]; [discriminate|]. injection Heq as ->. congruence.
        * intros s' _ Heq. exact Heq.
    - repeat split; try discriminate; auto. }
  intros self. simpl. repeat split; try apply Hset.
Qed.

(** ** Rules on the in-memory store: what a rule leaves alone *)

Section StoreRuleFacts.

Variable lib : string -> result (option timedelta).


(** On this store [apply] is: compile, annotate, then keep the rows on
    which the predicate has one fixed truth value. *)
Lemma apply_on_store (self : QuerySetRule) (now : unit -> datetime) :
  exists keep : bool,
    forall qs : queryset,
      apply lib self qs now
      = (let* kwargs := filter_kwargs lib self qs now in
         let* q1 := apply_any_annotation self qs in
         select keep q1 kwargs).
Proof.
  unfold apply.
  destruct (String.eqb (method_type self) "filter");
    [exists true; reflexivity|].
  destruct (String.eqb (method_type self) "exclude");
    [exists false | exists true]; reflexivity.
Qed.

(** The annotation step changes the annotations only, and only under the
    alias. *)
Lemma apply_any_annotation_on_store (self : QuerySetRule) (qs q1 : queryset) :
  apply_any_annotation self qs = Ok q1 ->
  schema q1 = schema qs /\ rows q1 = rows qs
  /\ (annotations q1 = annotations qs
      \/ exists a, annotations q1
                   = <[annotated_field_name self := a]> (annotations qs)).
Proof.
  unfold apply_any_annotation.
  destruct (endswith "__count" (field_name self)).
  - destruct (rpartition "__" (field_name self)) as [[agg ?] ?].
    change (annotate qs [(annotated_field_name self, Count agg true)] = Ok q1
            -> schema q1 = schema qs /\ rows q1 = rows qs
               /\ (annotations q1 = annotations qs
                   \/ exists a, annotations q1
                        = <[annotated_field_name self := a]> (annotations qs))).
    rewrite annotate_one. intros Ha.
    destruct (annotate1_annotations _ _ _ _ Ha) as (H1 & H2 & H3).
    repeat split; try assumption. right. now exists (Count agg true).
  - intros Hq. injection Hq as <-. repeat split. now left.
Qed.



End StoreRuleFacts.

(** X18. On the in-memory store a rule that applies gives back part of
    what it was given: the schema is the same, every row kept is a row
    of the collection, and no annotation other than the rule's own alias
    is added, removed or changed. *)
Theorem X18_apply_narrows :
  forall (lib : string -> result (option timedelta)) (now : unit -> datetime)
         (self : QuerySetRule) (qs q : queryset),
    apply lib self qs now = Ok q ->
    schema q = schema qs
    /\ (forall row, In row (rows q) -> In row (rows qs))
    /\ (forall alias, alias <> annotated_field_name self ->
                      annotations q !! alias = annotations qs !! alias).
Proof.
  intros lib now self qs q Hq.
  destruct (apply_on_store lib self now) as [keep Happly].
  rewrite Happly in Hq.
  destruct (filter_kwargs lib self qs now) as [kwargs|e]; [|discriminate].
  rewrite bind_Ok in Hq.
  destruct (apply_any_annotation self qs) as [q1|e] eqn:Hq1; [|discriminate].
  rewrite bind_Ok in Hq.
  destruct (apply_any_annotation_on_store self qs q1 Hq1) as (Hs & Hr & Ha).
  destruct (select_rows keep q1 q kwargs Hq) as (ps & Hps & Hrows).
  unfold select in Hq. rewrite Hps, bind_Ok in Hq. injection Hq as <-.
  simpl. split; [exact Hs|]. split.
  - intros row Hin. apply List.filter_In in Hin as [Hin _]. now rewrite <- Hr.
  - intros alias Hne. destruct Ha as [->|[a ->]]; [reflexivity|].
    now rewrite lookup_insert_ne by congruence.
Qed.

Lemma X18_apply_narrows_witness :
  let kept :=
    mk_queryset (schema Samples.people)
      [Samples.person 15 []; Samples.person 21 [4]]%Z
      {[ "num_orders" := Count "orders" true ]} in
  (forall row, In row (rows kept) -> In row (rows Samples.people))
  /\ annotations kept !! "num_items" = annotations Samples.people !! "num_items".
Proof.
  intros kept.
  assert (Hq : apply Dateparse.current
                 (mk_rule "exclude" "orders__count" "gt" "1")
                 Samples.people Samples.new_year_2024 = Ok kept)
    by (vm_compute; reflexivity).
  destruct (X18_apply_narrows Dateparse.current Samples.new_year_2024
              (mk_rule "exclude" "orders__count" "gt" "1")
              Samples.people kept Hq) as (_ & Hrows & Hann).
  split; [exact Hrows|]. apply Hann. discriminate.
Defined.


